(** * jt-ssh-client: a model of [jt_ssh_client/connector.py] and [enums.py]

    The Python code is embedded shallowly.  A method of [Connector] becomes a
    computation in a small state-and-exception monad: the state holds the
    [self] object and the outside world (the calls made to paramiko and scp,
    the open/closed status of the three clients, [sys.stdout]); a Python
    [raise] becomes the result [Raise e], and the state reached at the raise
    is kept so that it can be inspected.

    paramiko, scp, [pathlib] and the remote host are not part of the
    repository.  What they answer is collected in a record [Env]; the
    control flow around their calls is the code's own. *)

From Stdlib Require Import ZArith NArith List String Ascii Bool Lia.
From Stdlib.Strings Require Import Byte.
From Stdlib Require Import DecimalString.
From Stdlib Require Import Floats.SpecFloat.
Import ListNotations.

Local Open Scope string_scope.
Local Open Scope Z_scope.

(* ===================================================================== *)
(** ** Python exceptions and the monad *)
(* ===================================================================== *)

(** The exceptions the code raises itself or names in an [except] clause,
    those of the built-ins it uses, and [Passthrough] for every other
    failure of a collaborator (I/O errors of a transfer, [SSHException],
    a bad passphrase, ...), told apart by its class name. *)
Inductive exn : Type :=
| IndexError
| UnicodeDecodeError
| OverflowError
| ZeroDivisionError
| AttributeError (name : string)
| FileExistsError (msg : string)
| Exception (msg : string)
| BadHostKeyException
| AuthenticationException
| Passthrough (class_name : string).

Inductive result (A : Type) : Type :=
| Ok (a : A)
| Raise (e : exn).
Arguments Ok {A} a.
Arguments Raise {A} e.

(** A computation over a state [S]: it returns a value or raises, and in both
    cases leaves a state behind. *)
Definition M (S A : Type) : Type := S -> result A * S.

Definition ret {S A : Type} (a : A) : M S A := fun s => (Ok a, s).

Definition raise {S A : Type} (e : exn) : M S A := fun s => (Raise e, s).

Definition bind {S A B : Type} (m : M S A) (k : A -> M S B) : M S B :=
  fun s =>
    match m s with
    | (Ok a, s') => k a s'
    | (Raise e, s') => (Raise e, s')
    end.

(** [try: m except ...: handler]. *)
Definition try_except {S A : Type} (m : M S A) (handler : exn -> M S A) : M S A :=
  fun s =>
    match m s with
    | (Ok a, s') => (Ok a, s')
    | (Raise e, s') => handler e s'
    end.

Definition modify {S : Type} (f : S -> S) : M S unit := fun s => (Ok tt, f s).

Declare Scope py_scope.
Delimit Scope py_scope with py.
Notation "x <- m ;; k" := (bind m (fun x => k))
  (at level 61, m at next level, right associativity) : py_scope.
Notation "m ;; k" := (bind m (fun _ => k))
  (at level 61, right associativity) : py_scope.
Local Open Scope py_scope.

(** [for x in xs: body(x)]. *)
Definition for_each {S A : Type} (xs : list A) (body : A -> M S unit) : M S unit :=
  (fix loop (xs : list A) : M S unit :=
     match xs with
     | [] => ret tt
     | x :: rest => body x ;; loop rest
     end) xs.

(** [if c: m] without an [else]. *)
Definition when {S : Type} (c : bool) (m : M S unit) : M S unit :=
  if c then m else ret tt.

(* ===================================================================== *)
(** ** Python built-ins used by the code *)
(* ===================================================================== *)

(** A Python [str] is represented by its UTF-8 encoding, a Rocq [string];
    a Python [bytes] by a list of bytes. *)

Definition CR : string := String (ascii_of_nat 13) EmptyString.
Definition LF : string := String (ascii_of_nat 10) EmptyString.

Definition in_range (lo hi : N) (b : byte) : bool :=
  ((lo <=? Byte.to_N b) && (Byte.to_N b <=? hi))%N.

Definition continuation (b : byte) : bool := in_range 0x80 0xbf b.

(** Well-formed UTF-8 (RFC 3629): no overlong forms, no surrogates, nothing
    above U+10FFFF.  This is what [bytes.decode('utf-8')] accepts. *)
Fixpoint utf8_valid (bs : list byte) : bool :=
  match bs with
  | [] => true
  | b0 :: r0 =>
      if in_range 0x00 0x7f b0 then utf8_valid r0
      else if in_range 0xc2 0xdf b0 then
        match r0 with
        | b1 :: r1 => continuation b1 && utf8_valid r1
        | _ => false
        end
      else if in_range 0xe0 0xef b0 then
        match r0 with
        | b1 :: b2 :: r2 =>
            (if in_range 0xe0 0xe0 b0 then in_range 0xa0 0xbf b1
             else if in_range 0xed 0xed b0 then in_range 0x80 0x9f b1
             else continuation b1)
            && continuation b2 && utf8_valid r2
        | _ => false
        end
      else if in_range 0xf0 0xf4 b0 then
        match r0 with
        | b1 :: b2 :: b3 :: r3 =>
            (if in_range 0xf0 0xf0 b0 then in_range 0x90 0xbf b1
             else if in_range 0xf4 0xf4 b0 then in_range 0x80 0x8f b1
             else continuation b1)
            && continuation b2 && continuation b3 && utf8_valid r3
        | _ => false
        end
      else false
  end.

(** [b.decode('utf-8')]. *)
Definition bytes_decode {S : Type} (b : list byte) : M S string :=
  if utf8_valid b then ret (string_of_list_byte b) else raise UnicodeDecodeError.

(** The members of the [peername] tuple: a host name and a port number. *)
Inductive pyatom : Type :=
| PyStr (s : string)
| PyInt (z : Z).

(** [str(x)], which is what an f-string field [{x}] inserts. *)
Definition py_str (x : pyatom) : string :=
  match x with
  | PyStr s => s
  | PyInt z => NilZero.string_of_int (Z.to_int z)
  end.

(** [t[i]] on a tuple, for a non-negative literal index. *)
Definition tuple_getitem {S A : Type} (t : list A) (i : nat) : M S A :=
  match nth_error t i with
  | Some x => ret x
  | None => raise IndexError
  end.

(** Python's [float] is IEEE 754 binary64. *)
Definition prec : Z := 53.
Definition emax : Z := 1024.
Definition float : Type := spec_float.

(** The double nearest to an integer, ties to even; an infinity when the
    integer is out of range. *)
Definition to_float (z : Z) : float := binary_normalize prec emax z 0 false.

Definition overflows (z : Z) : bool :=
  match to_float z with
  | S754_infinity _ => true
  | _ => false
  end.

(** [float(z)] for an [int]: [OverflowError] when [z] is out of range. *)
Definition float_of_int {S : Type} (z : Z) : M S float :=
  match to_float z with
  | S754_infinity _ => raise OverflowError
  | f => ret f
  end.

Definition is_zero (f : float) : bool :=
  match f with
  | S754_zero _ => true
  | _ => false
  end.

(** [a / y] for an [int] [a] and a [float] [y]: [a] is converted first, then
    the divisor is tested. *)
Definition int_truediv_float {S : Type} (a : Z) (y : float) : M S float :=
  x <- float_of_int a ;;
  if is_zero y then raise ZeroDivisionError
  else ret (SFdiv prec emax x y).

(** [a * y] for an [int] [a] and a [float] [y]. *)
Definition int_mul_float {S : Type} (a : Z) (y : float) : M S float :=
  x <- float_of_int a ;;
  ret (SFmul prec emax x y).

Definition decimal (n : Z) : string := NilZero.string_of_int (Z.to_int n).

(** The integer nearest to [m * 2^e], ties to even ([m] positive). *)
Definition round_half_even (m e : Z) : Z :=
  if 0 <=? e then m * 2 ^ e
  else
    let d := 2 ^ (- e) in
    let q := m / d in
    let r := m mod d in
    match 2 * r ?= d with
    | Lt => q
    | Gt => q + 1
    | Eq => if Z.even q then q else q + 1
    end.

(** [f"{x:.2f}"]: two digits after the point, the exact binary value rounded
    to the nearest hundredth, ties to even. *)
Definition format_2f (x : float) : string :=
  let sign (s : bool) := if s then "-" else "" in
  match x with
  | S754_nan => "nan"
  | S754_infinity s => sign s ++ "inf"
  | S754_zero s => sign s ++ "0.00"
  | S754_finite s m e =>
      let h := round_half_even (Zpos m * 100) e in
      sign s ++ decimal (h / 100) ++ "."
        ++ (if h mod 100 <? 10 then "0" else "") ++ decimal (h mod 100)
  end.

(* ===================================================================== *)
(** ** [_scp_client_progress_text_callback] *)
(* ===================================================================== *)

(** [sys.stdout]: the strings written so far, oldest first. *)
Definition Stdout : Type := list string.

Definition stdout_write (text : string) : M Stdout unit :=
  modify (fun out => out ++ [text])%list.

Definition _scp_client_progress_text_callback
    (file : list byte) (size sent : Z) (peername : list pyatom) : M Stdout unit :=
  p0 <- tuple_getitem peername 0 ;;
  p1 <- tuple_getitem peername 1 ;;
  name <- bytes_decode file ;;
  let prefix := py_str p0 ++ ":" ++ py_str p1 ++ " | " ++ name in
  fsize <- float_of_int size ;;
  ratio <- int_truediv_float sent fsize ;;
  percentage <- int_mul_float 100 ratio ;;
  if sent <? size then
    stdout_write (prefix ++ " | " ++ format_2f percentage ++ "%" ++ CR)
  else
    stdout_write (prefix ++ " | " ++ format_2f percentage ++ "%" ++ LF).

(** The percentage that the callback shows. *)
Definition percentage_of (sent size : Z) : float :=
  SFmul prec emax (to_float 100)
    (SFdiv prec emax (to_float sent) (to_float size)).

(* ===================================================================== *)
(** ** [enums.py] *)
(* ===================================================================== *)

Module Client.
Inductive t : Type := SSHClient | SCPClient | SFTPClient.

(** [client.value] *)
Definition value (c : t) : string :=
  match c with
  | SSHClient => "SSHClient"
  | SCPClient => "SCPClient"
  | SFTPClient => "SFTPClient"
  end.
End Client.

(* ===================================================================== *)
(** ** Objects of the collaborators *)
(* ===================================================================== *)

(** [paramiko.client.MissingHostKeyPolicy] and its subclasses. *)
Inductive Policy : Type :=
| AutoAddPolicy
| RejectPolicy
| WarningPolicy
| CustomPolicy (name : string).

(** A loaded private key, [paramiko.RSAKey]. *)
Inductive PKey : Type :=
| RSAKey (material : string).

(** The [progress4] hook of an [SCPClient]. *)
Inductive Callback : Type :=
| ProgressText                      (* _scp_client_progress_text_callback *)
| CustomCallback (name : string).

(** [paramiko.Transport], known by its peer name. *)
Record Transport : Type := { peer_host : string; peer_port : Z }.

(** The values an attribute [ssh_client], [scp_client] or [sftp_client] can be
    bound to, by class. *)
Inductive pyobj : Type :=
| PyNone
| SSHClientObj
| SCPClientObj (transport : Transport) (progress4 : Callback)
| SFTPClientObj.

(** An attribute of [self] that the constructor does not set at its
    beginning: [Absent] is what [hasattr] tests. *)
Inductive attr : Type :=
| Absent
| Bound (v : pyobj).

(** [**kwargs]: keyword names with their values rendered as text. *)
Definition kwargs : Type := list (string * string).

Record ConnectArgs : Type := {
  hostname : string;
  conn_port : Z;
  conn_username : option string;
  conn_password : option string;
  pkey : option PKey;
  key_filename : option string;
  passphrase : option string;
  timeout : Z;
  allow_agent : bool;
  look_for_keys : bool;
  conn_kwargs : kwargs
}.

(** The calls made to the collaborators, and [print]. *)
Inductive event : Type :=
| EPathExists (path : string)
| EFromPrivateKeyFile (filename : string) (password : option string)
| ESSHClient
| ESetMissingHostKeyPolicy (policy : Policy)
| ELoadSystemHostKeys
| EConnect (args : ConnectArgs)
| EGetTransport
| ESCPClient (transport : Transport) (progress4 : Callback)
| EOpenSftp
| EClose (c : Client.t)
| EScpGet (remote_path local_path : string) (recursive : bool) (kw : kwargs)
| ESftpGet (remotepath localpath : string) (kw : kwargs)
| EScpPut (files remote_path : string)
| ESftpPut (localpath remotepath : string) (kw : kwargs)
| EExecCommand (command : string)
| ERecvExitStatus (command : string) (status : Z)
| EReadlines (command : string)
| EPrint (text : string).

(** What the collaborators answer.  [None] in an outcome means that the call
    returns, [Some e] that it raises [e]. *)
Record Env : Type := {
  path_exists : string -> bool;
  from_private_key_file : string -> option string -> result PKey;
  connect_outcome : ConnectArgs -> option exn;
  transport_of_connection : option Transport;
  open_sftp_outcome : option exn;
  close_outcome : Client.t -> option exn;
  scp_get_outcome : string -> string -> bool -> kwargs -> option exn;
  sftp_get_outcome : string -> string -> kwargs -> option exn;
  scp_put_outcome : string -> string -> option exn;
  sftp_put_outcome : string -> string -> kwargs -> option exn;
  exec_outcome : string -> result (Z * list string)
}.

(** A local path as [pathlib] sees it: a regular file, a directory with its
    entries, or neither (missing, a socket, a dangling link).  The string is
    [str(path)]. *)
#[local] Set Warnings "-register-all".
Inductive entry : Type :=
| RegularFile (path : string)
| Directory (path : string) (items : list entry)
| Neither (path : string).

Definition path_str (source : entry) : string :=
  match source with
  | RegularFile p | Directory p _ | Neither p => p
  end.

Definition is_file (source : entry) : bool :=
  match source with
  | RegularFile _ => true
  | _ => false
  end.

Definition is_dir (source : entry) : bool :=
  match source with
  | Directory _ _ => true
  | _ => false
  end.

Definition iterdir (source : entry) : list entry :=
  match source with
  | Directory _ items => items
  | _ => []
  end.

(* ===================================================================== *)
(** ** [class Connector]: the object and the state *)
(* ===================================================================== *)

Record Connector : Type := {
  username : option string;
  password : option string;
  host : string;
  port : Z;
  ssh_private_key : option PKey;
  ssh_private_key_file : option string;
  ssh_public_key_file : option string;
  ssh_key_passphrase : option string;
  policy : Policy;
  ssh_client : attr;
  scp_client : attr;
  sftp_client : attr
}.

(** The clients whose [close()] has run, and every call made so far. *)
Record World : Type := {
  trace : list event;
  ssh_closed : bool;
  scp_closed : bool;
  sftp_closed : bool
}.

Record State : Type := { self : Connector; world : World }.

Definition get_self : M State Connector := fun st => (Ok (self st), st).

Definition set_self (f : Connector -> Connector) : M State unit :=
  modify (fun st => {| self := f (self st); world := world st |}).

(** The state after more calls. *)
Definition record_all (evs : list event) (st : State) : State :=
  {| self := self st;
     world := {| trace := (trace (world st) ++ evs)%list;
                 ssh_closed := ssh_closed (world st);
                 scp_closed := scp_closed (world st);
                 sftp_closed := sftp_closed (world st) |} |}.

Definition record (ev : event) (st : State) : State := record_all [ev] st.

Definition log (ev : event) : M State unit := modify (record ev).

Definition result_of (o : option exn) : result unit :=
  match o with
  | None => Ok tt
  | Some e => Raise e
  end.

Definition outcome {S : Type} (o : option exn) : M S unit :=
  fun s => (result_of o, s).

(** A call to a collaborator: it is recorded, then it returns or raises. *)
Definition call (ev : event) (o : option exn) : M State unit :=
  log ev ;; outcome o.

(** The state once the client of class [c] is closed. *)
Definition set_closed (c : Client.t) (st : State) : State :=
  let w := world st in
  {| self := self st;
     world :=
       match c with
       | Client.SSHClient =>
           {| trace := trace w; ssh_closed := true;
              scp_closed := scp_closed w; sftp_closed := sftp_closed w |}
       | Client.SCPClient =>
           {| trace := trace w; ssh_closed := ssh_closed w;
              scp_closed := true; sftp_closed := sftp_closed w |}
       | Client.SFTPClient =>
           {| trace := trace w; ssh_closed := ssh_closed w;
              scp_closed := scp_closed w; sftp_closed := true |}
       end |}.

Definition mark_closed (c : Client.t) : M State unit := modify (set_closed c).

(** [self.<name>]: reading an attribute that was never assigned raises
    [AttributeError]. *)
Definition getattr (name : string) (slot : Connector -> attr) : M State pyobj :=
  o <- get_self ;;
  match slot o with
  | Bound v => ret v
  | Absent => raise (AttributeError name)
  end.

(** [hasattr(self, name)] *)
Definition hasattr (slot : Connector -> attr) : M State bool :=
  o <- get_self ;;
  match slot o with
  | Bound _ => ret true
  | Absent => ret false
  end.

(** Truth value of an object: the three clients define neither [__bool__]
    nor [__len__]. *)
Definition truthy (v : pyobj) : bool :=
  match v with
  | PyNone => false
  | _ => true
  end.

(** Truth value of an [Optional[str]]. *)
Definition truthy_str (s : option string) : bool :=
  match s with
  | None => false
  | Some "" => false
  | Some _ => true
  end.

Definition set_ssh_client (a : attr) (o : Connector) : Connector :=
  {| username := username o; password := password o; host := host o;
     port := port o; ssh_private_key := ssh_private_key o;
     ssh_private_key_file := ssh_private_key_file o;
     ssh_public_key_file := ssh_public_key_file o;
     ssh_key_passphrase := ssh_key_passphrase o; policy := policy o;
     ssh_client := a; scp_client := scp_client o; sftp_client := sftp_client o |}.

Definition set_scp_client (a : attr) (o : Connector) : Connector :=
  {| username := username o; password := password o; host := host o;
     port := port o; ssh_private_key := ssh_private_key o;
     ssh_private_key_file := ssh_private_key_file o;
     ssh_public_key_file := ssh_public_key_file o;
     ssh_key_passphrase := ssh_key_passphrase o; policy := policy o;
     ssh_client := ssh_client o; scp_client := a; sftp_client := sftp_client o |}.

Definition set_sftp_client (a : attr) (o : Connector) : Connector :=
  {| username := username o; password := password o; host := host o;
     port := port o; ssh_private_key := ssh_private_key o;
     ssh_private_key_file := ssh_private_key_file o;
     ssh_public_key_file := ssh_public_key_file o;
     ssh_key_passphrase := ssh_key_passphrase o; policy := policy o;
     ssh_client := ssh_client o; scp_client := scp_client o; sftp_client := a |}.

Definition set_ssh_private_key (k : option PKey) (o : Connector) : Connector :=
  {| username := username o; password := password o; host := host o;
     port := port o; ssh_private_key := k;
     ssh_private_key_file := ssh_private_key_file o;
     ssh_public_key_file := ssh_public_key_file o;
     ssh_key_passphrase := ssh_key_passphrase o; policy := policy o;
     ssh_client := ssh_client o; scp_client := scp_client o;
     sftp_client := sftp_client o |}.

Definition set_key_files (priv pub pass : option string) (o : Connector) : Connector :=
  {| username := username o; password := password o; host := host o;
     port := port o; ssh_private_key := ssh_private_key o;
     ssh_private_key_file := priv;
     ssh_public_key_file := pub;
     ssh_key_passphrase := pass; policy := policy o;
     ssh_client := ssh_client o; scp_client := scp_client o;
     sftp_client := sftp_client o |}.

(** [s.strip()], for the white space of the ASCII range. *)
Definition is_space (c : ascii) : bool :=
  let n := N_of_ascii c in
  (((9 <=? n) && (n <=? 13)) || ((28 <=? n) && (n <=? 32)))%N.

Fixpoint lstrip (s : string) : string :=
  match s with
  | String c rest => if is_space c then lstrip rest else s
  | EmptyString => EmptyString
  end.

Fixpoint rstrip (s : string) : string :=
  match s with
  | String c rest =>
      match rstrip rest with
      | EmptyString => if is_space c then EmptyString else String c EmptyString
      | rest' => String c rest'
      end
  | EmptyString => EmptyString
  end.

Definition strip (s : string) : string := rstrip (lstrip s).

(* ===================================================================== *)
(** ** The methods of [Connector] *)
(* ===================================================================== *)

Definition invalid_key_files : string := "Invalid SSH Private/Public Key File".

Definition invalid_credentials : string :=
  "Invalid credentials supplied. Please specify either "
  ++ "a username/password or an SSH private key file path "
  ++ "and SSH private key passphrase.".

Definition not_supported (client : Client.t) : string :=
  Client.value client ++ " not currently supported".

(** [str(x)] of an [Optional[Path]]. *)
Definition str_of_optional (x : option string) : string :=
  match x with
  | Some p => p
  | None => "None"
  end.

Section Methods.

Variable env : Env.

(** [obj.<method>(...)] for a method that only [SSHClient] has. *)
Definition ssh_method (method : string) (obj : pyobj) : M State unit :=
  match obj with
  | SSHClientObj => ret tt
  | _ => raise (AttributeError method)
  end.

(** [obj.close()]: each of the three clients has it. *)
Definition close_obj (obj : pyobj) : M State unit :=
  match obj with
  | SSHClientObj =>
      call (EClose Client.SSHClient) (close_outcome env Client.SSHClient) ;;
      mark_closed Client.SSHClient
  | SCPClientObj _ _ =>
      call (EClose Client.SCPClient) (close_outcome env Client.SCPClient) ;;
      mark_closed Client.SCPClient
  | SFTPClientObj =>
      call (EClose Client.SFTPClient) (close_outcome env Client.SFTPClient) ;;
      mark_closed Client.SFTPClient
  | PyNone => raise (AttributeError "close")
  end.

(** Lines 100-113. *)
Definition disconnect : M State unit :=
  c <- getattr "ssh_client" ssh_client ;;
  when (truthy c)
    (c <- getattr "ssh_client" ssh_client ;; close_obj c) ;;
  h <- hasattr scp_client ;;
  (if h then
     c <- getattr "scp_client" scp_client ;;
     when (truthy c)
       (c <- getattr "scp_client" scp_client ;; close_obj c)
   else ret tt) ;;
  h <- hasattr sftp_client ;;
  (if h then
     c <- getattr "sftp_client" sftp_client ;;
     when (truthy c)
       (c <- getattr "sftp_client" sftp_client ;; close_obj c)
   else ret tt).

Definition key_connect_args (o : Connector) (key : PKey) (kw : kwargs) : ConnectArgs :=
  {| hostname := host o; conn_port := port o;
     conn_username := username o; conn_password := password o;
     pkey := Some key;
     key_filename := Some (str_of_optional (ssh_private_key_file o));
     passphrase := ssh_key_passphrase o;
     timeout := 5000; allow_agent := false; look_for_keys := false;
     conn_kwargs := kw |}.

Definition password_connect_args (o : Connector) (kw : kwargs) : ConnectArgs :=
  {| hostname := host o; conn_port := port o;
     conn_username := username o; conn_password := password o;
     pkey := None; key_filename := None; passphrase := None;
     timeout := 5000; allow_agent := false; look_for_keys := false;
     conn_kwargs := kw |}.

(** Lines 115-176. *)
Definition _create_ssh_client (kw : kwargs) : M State pyobj :=
  try_except
    (log ESSHClient ;;
     o <- get_self ;;
     log (ESetMissingHostKeyPolicy (policy o)) ;;
     log ELoadSystemHostKeys ;;
     (match ssh_private_key o with
      | Some key =>
          call (EConnect (key_connect_args o key kw))
               (connect_outcome env (key_connect_args o key kw))
      | None =>
          if truthy_str (username o) && truthy_str (password o) then
            call (EConnect (password_connect_args o kw))
                 (connect_outcome env (password_connect_args o kw))
          else raise (Exception invalid_credentials)
      end) ;;
     set_self (set_ssh_client (Bound SSHClientObj)) ;;
     ret SSHClientObj)
    (fun error =>
       match error with
       | BadHostKeyException => raise error
       | AuthenticationException => raise error
       | _ => raise error
       end).

(** Lines 178-193. *)
Definition _create_scp_client (callback : Callback) : M State pyobj :=
  c <- getattr "ssh_client" ssh_client ;;
  ssh_method "get_transport" c ;;
  log EGetTransport ;;
  (match transport_of_connection env with
   | Some transport =>
       log (ESCPClient transport callback) ;;
       set_self (set_scp_client (Bound (SCPClientObj transport callback)))
   | None => ret tt
   end) ;;
  getattr "scp_client" scp_client.

(** Lines 195-203. *)
Definition _create_sftp_client : M State pyobj :=
  c <- getattr "ssh_client" ssh_client ;;
  ssh_method "open_sftp" c ;;
  call EOpenSftp (open_sftp_outcome env) ;;
  set_self (set_sftp_client (Bound SFTPClientObj)) ;;
  getattr "sftp_client" sftp_client.

(** Lines 205-219. *)
Definition _get_client (client : Client.t) : M State pyobj :=
  match client with
  | Client.SSHClient => getattr "ssh_client" ssh_client
  | Client.SCPClient => getattr "scp_client" scp_client
  | _ => getattr "sftp_client" sftp_client
  end.

(** Lines 221-233.  A [Path] is always true. *)
Definition _retrieve_ssh_key : M State (option PKey) :=
  o <- get_self ;;
  match ssh_private_key_file o with
  | Some file =>
      log (EFromPrivateKeyFile file (ssh_key_passphrase o)) ;;
      match from_private_key_file env file (ssh_key_passphrase o) with
      | Ok key =>
          set_self (set_ssh_private_key (Some key)) ;;
          ret (Some key)
      | Raise e => raise e
      end
  | None => ret None
  end.

(** Lines 65-73 of [__init__]: the attributes every object has. *)
Definition new_object
    (host_ : string) (port_ : Z) (username_ password_ : option string)
    (policy_ : Policy) : Connector :=
  {| username := username_; password := password_; host := strip host_;
     port := port_; ssh_private_key := None; ssh_private_key_file := None;
     ssh_public_key_file := None; ssh_key_passphrase := None;
     policy := policy_;
     ssh_client := Absent; scp_client := Absent; sftp_client := Absent |}.

(** Lines 65-90 of [__init__]: the attributes, then the key files. *)
Definition init_attributes
    (host_ : string) (port_ : Z) (username_ password_ : option string)
    (ssh_credentials : option (string * string * option string))
    (policy_ : Policy) : M State unit :=
  set_self (fun _ => new_object host_ port_ username_ password_ policy_) ;;
  match ssh_credentials with
  | Some (private_key_file, public_key_file, key_passphrase) =>
      log (EPathExists private_key_file) ;;
      log (EPathExists public_key_file) ;;
      if path_exists env private_key_file && path_exists env public_key_file then
        set_self (set_key_files (Some private_key_file) (Some public_key_file)
                                key_passphrase)
      else raise (FileExistsError invalid_key_files)
  | None => ret tt
  end.

(** Lines 45-98.  [ssh_credentials] is [None] for the empty tuple. *)
Definition __init__
    (host_ : string) (port_ : Z) (username_ password_ : option string)
    (ssh_credentials : option (string * string * option string))
    (policy_ : Policy) : M State unit :=
  init_attributes host_ port_ username_ password_ ssh_credentials policy_ ;;
  _retrieve_ssh_key ;;
  c <- _create_ssh_client [] ;;
  set_self (set_ssh_client (Bound c)) ;;
  c <- _create_scp_client ProgressText ;;
  set_self (set_scp_client (Bound c)) ;;
  c <- _create_sftp_client ;;
  set_self (set_sftp_client (Bound c)).

(** Lines 250-279. *)
Definition _download_file
    (client : Client.t) (source destination : string) (recursive : bool)
    (kw : kwargs) : M State unit :=
  _client <- _get_client client ;;
  match _client with
  | SCPClientObj _ _ =>
      call (EScpGet source destination recursive kw)
           (scp_get_outcome env source destination recursive kw)
  | SFTPClientObj =>
      call (ESftpGet source destination kw)
           (sftp_get_outcome env source destination kw)
  | _ => raise (Exception (not_supported client))
  end.


(** Lines 299-325. *)
Definition _upload_file
    (client : Client.t) (source : entry) (destination : string)
    (kw : kwargs) : M State unit :=
  _client <- _get_client client ;;
  match _client with
  | SCPClientObj _ _ =>
      call (EScpPut (path_str source) destination)
           (scp_put_outcome env (path_str source) destination)
  | SFTPClientObj =>
      call (ESftpPut (path_str source) destination kw)
           (sftp_put_outcome env (path_str source) destination kw)
  | _ => raise (Exception (not_supported client))
  end.

(** Lines 345-350: the body of the loop of [_upload_files] for one
    [source].  The call at line 350 gives [recursive] no value, so it has
    its default, [False]. *)
Fixpoint _upload_source
    (client : Client.t) (source : entry) (destination : string)
    (recursive : bool) (kw : kwargs) {struct source} : M State unit :=
  when (is_file source) (_upload_file client source destination kw) ;;
  match source with
  | Directory _ items =>
      when recursive
        (for_each items (fun item =>
           for_each [item] (fun source' =>
             _upload_source client source' destination false kw)))
  | _ => ret tt
  end.

(** Lines 327-350. *)
Definition _upload_files
    (client : Client.t) (sources : list entry) (destination : string)
    (recursive : bool) (kw : kwargs) : M State unit :=
  for_each sources
    (fun source => _upload_source client source destination recursive kw).


End Methods.


(* ===================================================================== *)
(** ** Vocabulary of the statements *)
(* ===================================================================== *)

(** [st] is the state in which a call of the constructor returned. *)
Definition opened (env : Env) (st : State) : Prop :=
  exists host_ port_ username_ password_ ssh_credentials policy_ st0,
    __init__ env host_ port_ username_ password_ ssh_credentials policy_ st0
    = (Ok tt, st).

(** Lines 65-95 of [__init__]: all that is done about the credentials
    before a connection is asked for. *)
Definition resolve_credentials
    (env : Env) (host_ : string) (port_ : Z) (username_ password_ : option string)
    (ssh_credentials : option (string * string * option string))
    (policy_ : Policy) : M State (option PKey) :=
  init_attributes env host_ port_ username_ password_ ssh_credentials policy_ ;;
  _retrieve_ssh_key env.

(** The state from which [__init__] proceeds once line 73 has run. *)
Definition fresh
    (host_ : string) (port_ : Z) (username_ password_ : option string)
    (policy_ : Policy) (st : State) : State :=
  {| self := new_object host_ port_ username_ password_ policy_;
     world := world st |}.

(** The three clients are bound, each to an object of its class. *)
Definition has_clients (st : State) : Prop :=
  ssh_client (self st) = Bound SSHClientObj
  /\ (exists transport callback,
        scp_client (self st) = Bound (SCPClientObj transport callback))
  /\ sftp_client (self st) = Bound SFTPClientObj.

(** The state once [close()] was called on the client of class [c] and
    returned. *)
Definition closed_client (c : Client.t) (st : State) : State :=
  set_closed c (record (EClose c) st).

Definition closed_status (st : State) : bool * bool * bool :=
  (ssh_closed (world st), scp_closed (world st), sftp_closed (world st)).




(** Every regular file below a path, at any depth, depth first. *)
Fixpoint descendant_files (source : entry) : list string :=
  match source with
  | RegularFile p => [p]
  | Directory _ items => flat_map descendant_files items
  | Neither _ => []
  end.

(** The regular files that are a path itself or, with [recursive], directly
    inside it. *)
Definition shallow_files (recursive : bool) (source : entry) : list string :=
  match source with
  | RegularFile p => [p]
  | Directory _ items =>
      if recursive then map path_str (filter is_file items) else []
  | Neither _ => []
  end.

(* ===================================================================== *)
(** ** Scenarios *)
(* ===================================================================== *)

(** A host on which every call succeeds. *)
Definition quiet_env : Env :=
  {| path_exists := fun _ => true;
     from_private_key_file := fun file _ => Ok (RSAKey file);
     connect_outcome := fun _ => None;
     transport_of_connection := Some {| peer_host := "10.0.0.5"; peer_port := 22 |};
     open_sftp_outcome := None;
     close_outcome := fun _ => None;
     scp_get_outcome := fun _ _ _ _ => None;
     sftp_get_outcome := fun _ _ _ => None;
     scp_put_outcome := fun _ _ => None;
     sftp_put_outcome := fun _ _ _ => None;
     exec_outcome := fun command =>
       if String.eqb command "echo hi" then Ok (0, ["hi" ++ LF])
       else if String.eqb command "false" then Ok (1, [])
       else Ok (0, []) |}.


(** The same host when the connection has no transport. *)
Definition env_no_transport : Env :=
  {| path_exists := path_exists quiet_env;
     from_private_key_file := from_private_key_file quiet_env;
     connect_outcome := connect_outcome quiet_env;
     transport_of_connection := None;
     open_sftp_outcome := open_sftp_outcome quiet_env;
     close_outcome := close_outcome quiet_env;
     scp_get_outcome := scp_get_outcome quiet_env;
     sftp_get_outcome := sftp_get_outcome quiet_env;
     scp_put_outcome := scp_put_outcome quiet_env;
     sftp_put_outcome := sftp_put_outcome quiet_env;
     exec_outcome := exec_outcome quiet_env |}.




Definition new_world : World :=
  {| trace := []; ssh_closed := false; scp_closed := false; sftp_closed := false |}.

(** An object before [__init__] has run on it. *)
Definition blank : Connector :=
  {| username := None; password := None; host := ""; port := 0;
     ssh_private_key := None; ssh_private_key_file := None;
     ssh_public_key_file := None; ssh_key_passphrase := None;
     policy := AutoAddPolicy;
     ssh_client := Absent; scp_client := Absent; sftp_client := Absent |}.

Definition start : State := {| self := blank; world := new_world |}.

(** [Connector("10.0.0.5", 22, "bob", "x")] *)
Definition bob (env : Env) : M State unit :=
  __init__ env "10.0.0.5" 22 (Some "bob") (Some "x") None AutoAddPolicy.

(** The session of [bob] on a host. *)
Definition session (env : Env) : State := snd (bob env start).

(** [dirA/] with [f1.txt] and [sub/f2.txt]. *)
Definition dirA : entry :=
  Directory "dirA"
    [RegularFile "dirA/f1.txt";
     Directory "dirA/sub" [RegularFile "dirA/sub/f2.txt"]].

(* ===================================================================== *)
(** ** Helper methods for Android hosts *)
(* ===================================================================== *)








(* ===================================================================== *)
(** ** More vocabulary *)
(* ===================================================================== *)



(** The calls of one round of the loop of [_execute_commands], whether
    [exec_command] returns or raises. *)
Definition exec_raises (env : Env) (command : string) : option exn :=
  match exec_outcome env command with
  | Ok _ => None
  | Raise e => Some e
  end.

(** The calls that the constructor may make: the tests of the key files, the
    loading of the key, the setting up of the SSH client, a [connect] with
    the agent and the search for keys switched off and a timeout of 5000,
    and the making of the SCP and SFTP clients.  No [close], no transfer, no
    command. *)
Definition constructor_event (ev : event) : Prop :=
  match ev with
  | EPathExists _ | EFromPrivateKeyFile _ _ | ESSHClient
  | ESetMissingHostKeyPolicy _ | ELoadSystemHostKeys | EGetTransport
  | ESCPClient _ _ | EOpenSftp => True
  | EConnect args =>
      timeout args = 5000 /\ allow_agent args = false
      /\ look_for_keys args = false
  | _ => False
  end.

(** A computation that, whatever it returns or raises, only adds calls that
    satisfy [P] and changes the closed status of no client. *)
Definition appends (P : event -> Prop) {A : Type} (m : M State A) : Prop :=
  forall st r st',
    m st = (r, st') ->
    exists evs,
      trace (world st') = (trace (world st) ++ evs)%list
      /\ Forall P evs
      /\ closed_status st' = closed_status st.

(* ===================================================================== *)
(** ** More scenarios *)
(* ===================================================================== *)

(** A key file that does not load. *)
Definition env_bad_passphrase : Env :=
  {| path_exists := path_exists quiet_env;
     from_private_key_file := fun _ _ => Raise (Passthrough "SSHException");
     connect_outcome := connect_outcome quiet_env;
     transport_of_connection := transport_of_connection quiet_env;
     open_sftp_outcome := open_sftp_outcome quiet_env;
     close_outcome := close_outcome quiet_env;
     scp_get_outcome := scp_get_outcome quiet_env;
     sftp_get_outcome := sftp_get_outcome quiet_env;
     scp_put_outcome := scp_put_outcome quiet_env;
     sftp_put_outcome := sftp_put_outcome quiet_env;
     exec_outcome := exec_outcome quiet_env |}.





(* ===================================================================== *)
(** ** The commands that only the SFTP client has (lines 370-456) *)
(* ===================================================================== *)

(** [paramiko.sftp_attr.SFTPAttributes], as far as a listing shows it. *)
Record SFTPAttributes : Type := {
  filename : string;
  st_size : Z;
  st_mode : Z
}.

(** The calls made to the SFTP client by these commands. *)
Inductive sftp_call : Type :=
| SListdir (path : string)
| SListdirAttr (path : string)
| SStat (path : string)
| SRmdir (path : string)
| SRemove (path : string).

(** What the SFTP server answers to them. *)
Record SftpEnv : Type := {
  listdir_answer : string -> result (list string);
  listdir_attr_answer : string -> result (list SFTPAttributes);
  stat_answer : string -> result SFTPAttributes;
  rmdir_outcome : string -> option exn;
  remove_outcome : string -> option exn
}.

(** The state of the connector together with the calls of this kind. *)
Record SftpState : Type := { connector : State; sftp_calls : list sftp_call }.

(** A computation on the connector run within the larger state. *)
Definition lift {A : Type} (m : M State A) : M SftpState A :=
  fun s =>
    let (r, st') := m (connector s) in
    (r, {| connector := st'; sftp_calls := sftp_calls s |}).

Definition sftp_log (c : sftp_call) : M SftpState unit :=
  modify (fun s =>
    {| connector := connector s; sftp_calls := (sftp_calls s ++ [c])%list |}).

(** [obj.<method>(...)] for a method that only [SFTPClient] has. *)
Definition sftp_method (method : string) (obj : pyobj) : M SftpState unit :=
  match obj with
  | SFTPClientObj => ret tt
  | _ => raise (AttributeError method)
  end.

(** The value or the exception that a collaborator answers with. *)
Definition answer {S A : Type} (r : result A) : M S A := fun s => (r, s).

(** Lines 372-382. *)
Definition _list_directory (sftp : SftpEnv) (path : string) : M SftpState (list string) :=
  c <- lift (getattr "sftp_client" sftp_client) ;;
  sftp_method "listdir" c ;;
  sftp_log (SListdir path) ;;
  answer (listdir_answer sftp path).

(** Lines 384-394. *)
Definition _list_attributes (sftp : SftpEnv) (path : string)
    : M SftpState (list SFTPAttributes) :=
  c <- lift (getattr "sftp_client" sftp_client) ;;
  sftp_method "listdir_attr" c ;;
  sftp_log (SListdirAttr path) ;;
  answer (listdir_attr_answer sftp path).

(** Lines 396-406. *)
Definition _retrieve_stats (sftp : SftpEnv) (path : string)
    : M SftpState SFTPAttributes :=
  c <- lift (getattr "sftp_client" sftp_client) ;;
  sftp_method "stat" c ;;
  sftp_log (SStat path) ;;
  answer (stat_answer sftp path).

(** Lines 408-418. *)
Definition _remove_directory (sftp : SftpEnv) (path : string) : M SftpState unit :=
  c <- lift (getattr "sftp_client" sftp_client) ;;
  sftp_method "rmdir" c ;;
  sftp_log (SRmdir path) ;;
  outcome (rmdir_outcome sftp path).

(** Lines 420-430. *)
Definition _remove_directories (sftp : SftpEnv) (paths : list string)
    : M SftpState unit :=
  for_each paths (fun path => _remove_directory sftp path).

(** Lines 432-442. *)
Definition _remove_file (sftp : SftpEnv) (path : string) : M SftpState unit :=
  c <- lift (getattr "sftp_client" sftp_client) ;;
  sftp_method "remove" c ;;
  sftp_log (SRemove path) ;;
  outcome (remove_outcome sftp path).

(** Lines 444-454. *)
Definition _remove_files (sftp : SftpEnv) (paths : list string) : M SftpState unit :=
  for_each paths (fun path => _remove_file sftp path).

(** The state after more calls of this kind. *)
Definition sftp_record_all (calls : list sftp_call) (s : SftpState) : SftpState :=
  {| connector := connector s; sftp_calls := (sftp_calls s ++ calls)%list |}.

(** A server on which [/sdcard/locked] cannot be removed. *)
Definition sftp_locked : SftpEnv :=
  {| listdir_answer := fun _ => Ok [];
     listdir_attr_answer := fun _ => Ok [];
     stat_answer := fun path =>
       Ok {| filename := path; st_size := 0; st_mode := 0 |};
     rmdir_outcome := fun path =>
       if String.eqb path "/sdcard/locked" then Some (Passthrough "PermissionError")
       else None;
     remove_outcome := fun path =>
       if String.eqb path "/sdcard/locked" then Some (Passthrough "PermissionError")
       else None |}.

(* ===================================================================== *)
(** ** [upgrade.py] *)
(* ===================================================================== *)

Module Upgrade.

(** The package [semver], which is not part of the repository: the versions,
    [VersionInfo.parse], the five bumps and [str]. *)
Record Semver : Type := {
  VersionInfo : Type;
  parse : string -> result VersionInfo;
  bump_major : VersionInfo -> VersionInfo;
  bump_minor : VersionInfo -> VersionInfo;
  bump_patch : VersionInfo -> VersionInfo;
  bump_prerelease : VersionInfo -> VersionInfo;
  bump_build : VersionInfo -> VersionInfo;
  str : VersionInfo -> string
}.

(** What went to the terminal: the texts printed and the prompts of
    [input]. *)
Inductive shown : Type :=
| Printed (text : string)
| Prompted (prompt : string).

(** The two files that [main] touches ([None] for a file that does not
    exist), the lines waiting on the standard input, and the terminal. *)
Record Desk : Type := {
  reference_file : option string;   (* VERSION *)
  module_file : option string;      (* src/jt_ssh_client/_version.py *)
  stdin : list string;
  terminal : list shown
}.

Definition REFERENCE_FILE : string := "VERSION".
Definition MODULE_FILE : string := "src/jt_ssh_client/_version.py".

Definition DQUOTE : string := String (ascii_of_nat 34) EmptyString.

Definition show (x : shown) : M Desk unit :=
  modify (fun d =>
    {| reference_file := reference_file d; module_file := module_file d;
       stdin := stdin d; terminal := (terminal d ++ [x])%list |}).

(** [REFERENCE_FILE.read_text()] *)
Definition read_reference : M Desk string :=
  fun d =>
    match reference_file d with
    | Some text => (Ok text, d)
    | None => (Raise (Passthrough "FileNotFoundError"), d)
    end.

(** [REFERENCE_FILE.write_text(text)], when the disk lets it. *)
Definition write_reference (write_outcome : string -> option exn) (text : string)
    : M Desk unit :=
  outcome (write_outcome REFERENCE_FILE) ;;
  modify (fun d =>
    {| reference_file := Some text; module_file := module_file d;
       stdin := stdin d; terminal := terminal d |}).

(** [MODULE_FILE.write_text(text)], when the disk lets it. *)
Definition write_module (write_outcome : string -> option exn) (text : string)
    : M Desk unit :=
  outcome (write_outcome MODULE_FILE) ;;
  modify (fun d =>
    {| reference_file := reference_file d; module_file := Some text;
       stdin := stdin d; terminal := terminal d |}).

(** The line that [input] takes from the standard input. *)
Definition take_line (rest : list string) : M Desk unit :=
  modify (fun d =>
    {| reference_file := reference_file d; module_file := module_file d;
       stdin := rest; terminal := terminal d |}).

(** [s.upper()], for the letters of the ASCII range; no other character
    becomes [Y] or [N]. *)
Definition upper_ascii (c : ascii) : ascii :=
  let n := N_of_ascii c in
  if ((97 <=? n) && (n <=? 122))%N then ascii_of_N (n - 32) else c.

Fixpoint upper (s : string) : string :=
  match s with
  | String c rest => String (upper_ascii c) (upper rest)
  | EmptyString => EmptyString
  end.

(** [response.upper() in ["Y", "N"]] *)
Definition is_answer (response : string) : bool :=
  String.eqb (upper response) "Y" || String.eqb (upper response) "N".

Definition confirm_prompt (text new_version : string) : string :=
  "Upgrade current version: v" ++ text ++ " to v" ++ new_version
  ++ " - Confirm (Y/N): ".

(** Lines 72-90: the loop, with [lines] what is waiting on the standard
    input; [input] at the end of the input raises [EOFError]. *)
Fixpoint confirm
    (write_outcome : string -> option exn) (text new_version : string)
    (lines : list string) {struct lines} : M Desk unit :=
  show (Prompted (confirm_prompt text new_version)) ;;
  match lines with
  | [] => raise (Passthrough "EOFError")
  | response :: rest =>
      take_line rest ;;
      if negb (is_answer response) then
        show (Printed ("Invalid response, try again." ++ LF)) ;;
        confirm write_outcome text new_version rest
      else if String.eqb (upper response) "Y" then
        write_reference write_outcome new_version ;;
        write_module write_outcome ("VERSION=" ++ DQUOTE ++ new_version ++ DQUOTE)
      else ret tt
  end.

(** [if flag: _version = _version.bump()] *)
Definition bump_if {V : Type} (flag : bool) (bump : V -> V) (v : V) : V :=
  if flag then bump v else v.

(** Lines 9-90. *)
Definition main
    (sv : Semver) (write_outcome : string -> option exn)
    (major minor patch prerelease build : bool) : M Desk unit :=
  text <- read_reference ;;
  let text := if String.eqb text "" then "0.0.0" else text in
  _version <- answer (parse sv text) ;;
  if negb major && negb minor && negb patch && negb prerelease && negb build then
    show (Printed ("Current version: " ++ str sv _version)) ;;
    raise (Passthrough "SystemExit")
  else
    let _version := bump_if major (bump_major sv) _version in
    let _version := bump_if minor (bump_minor sv) _version in
    let _version := bump_if patch (bump_patch sv) _version in
    let _version := bump_if prerelease (bump_prerelease sv) _version in
    let _version := bump_if build (bump_build sv) _version in
    d <- (fun d => (Ok d, d)) ;;
    confirm write_outcome text (str sv _version) (stdin d).

(** A stand-in for [semver] with versions [major.minor.patch] only, which
    knows the texts [0.0.0] and [1.2.3]. *)
Definition plain_semver : Semver :=
  {| VersionInfo := N * N * N;
     parse := fun text =>
       if String.eqb text "0.0.0" then Ok (0, 0, 0)%N
       else if String.eqb text "1.2.3" then Ok (1, 2, 3)%N
       else Raise (Passthrough "ValueError");
     bump_major := fun '(a, _, _) => (a + 1, 0, 0)%N;
     bump_minor := fun '(a, b, _) => (a, b + 1, 0)%N;
     bump_patch := fun '(a, b, c) => (a, b, c + 1)%N;
     bump_prerelease := fun v => v;
     bump_build := fun v => v;
     str := fun '(a, b, c) =>
       NilZero.string_of_uint (N.to_uint a) ++ "."
       ++ NilZero.string_of_uint (N.to_uint b) ++ "."
       ++ NilZero.string_of_uint (N.to_uint c) |}.

(** A desk with [1.2.3] in [VERSION] and lines typed ahead. *)
Definition desk (lines : list string) : Desk :=
  {| reference_file := Some "1.2.3";
     module_file := Some ("VERSION=" ++ DQUOTE ++ "1.2.3" ++ DQUOTE);
     stdin := lines; terminal := [] |}.

(** A disk that takes every write. *)
Definition writable : string -> option exn := fun _ => None.


End Upgrade.

(* ===================================================================== *)
(** ** Tactics *)
(* ===================================================================== *)

(** Unfold the monad in a hypothesis and follow the branches it takes. *)
Ltac unfold_monad_in H :=
  cbv beta iota zeta delta
    [bind ret raise try_except when call log modify outcome get_self set_self
     getattr hasattr mark_closed ssh_method] in H;
  simpl in H.

Ltac branches H :=
  repeat match type of H with
         | context [match ?x with _ => _ end] =>
             lazymatch x with
             | context [match _ with _ => _ end] => fail
             | _ => destruct x eqn:?; simpl in H; try discriminate H
             end
         end.

Ltac unfold_monad :=
  cbv beta iota zeta delta
    [bind ret raise try_except when call log modify outcome get_self set_self
     getattr hasattr mark_closed ssh_method];
  simpl.

(** Bring two states built with [record] and [record_all] to one form. *)
Ltac same_state :=
  unfold record, record_all, fresh; simpl; rewrite <- ?app_assoc; reflexivity.

(* ===================================================================== *)
(** ** The monad and the state *)
(* ===================================================================== *)

Lemma bind_Ok {S A B : Type} (m : M S A) (k : A -> M S B) s a s' :
  m s = (Ok a, s') -> bind m k s = k a s'.
Proof. intros H. unfold bind. rewrite H. reflexivity. Qed.

Lemma bind_Raise {S A B : Type} (m : M S A) (k : A -> M S B) s e s' :
  m s = (Raise e, s') -> bind m k s = (Raise e, s').
Proof. intros H. unfold bind. rewrite H. reflexivity. Qed.

Lemma bind_inv_Ok {S A B : Type} (m : M S A) (k : A -> M S B) s b s' :
  bind m k s = (Ok b, s') ->
  exists a s1, m s = (Ok a, s1) /\ k a s1 = (Ok b, s').
Proof.
  unfold bind. destruct (m s) as [[a | e] s1]; intros H.
  - exists a, s1. split; [reflexivity | exact H].
  - discriminate H.
Qed.

Lemma for_each_cons {S A : Type} (x : A) (xs : list A) (body : A -> M S unit) :
  for_each (x :: xs) body = bind (body x) (fun _ => for_each xs body).
Proof. reflexivity. Qed.


Lemma getattr_Bound name slot st v :
  slot (self st) = Bound v -> getattr name slot st = (Ok v, st).
Proof. intros H. unfold getattr, get_self, bind. rewrite H. reflexivity. Qed.

Lemma getattr_Absent name slot st :
  slot (self st) = Absent -> getattr name slot st = (Raise (AttributeError name), st).
Proof. intros H. unfold getattr, get_self, bind. rewrite H. reflexivity. Qed.

Lemma record_all_nil st : record_all [] st = st.
Proof.
  destruct st as [o [t a b c]]. unfold record_all. simpl.
  rewrite app_nil_r. reflexivity.
Qed.

Lemma record_all_app evs1 evs2 st :
  record_all evs2 (record_all evs1 st) = record_all (evs1 ++ evs2) st.
Proof. unfold record_all. simpl. rewrite app_assoc. reflexivity. Qed.

Lemma record_record_all ev evs st :
  record_all evs (record ev st) = record_all (ev :: evs) st.
Proof. unfold record. rewrite record_all_app. reflexivity. Qed.

(* ===================================================================== *)
(** ** What a successful constructor leaves behind *)
(* ===================================================================== *)

Lemma init_attributes_clients env h p u pw creds pol st r st' :
  init_attributes env h p u pw creds pol st = (r, st') ->
  ssh_client (self st') = Absent /\ scp_client (self st') = Absent
  /\ sftp_client (self st') = Absent.
Proof.
  unfold init_attributes. intros H. unfold_monad_in H.
  destruct creds as [[[priv pub] pass] |]; simpl in H.
  - destruct (path_exists env priv && path_exists env pub);
      inversion H; subst; simpl; auto.
  - inversion H; subst; simpl; auto.
Qed.

Lemma _retrieve_ssh_key_clients env st r st' :
  _retrieve_ssh_key env st = (r, st') ->
  ssh_client (self st') = ssh_client (self st)
  /\ scp_client (self st') = scp_client (self st)
  /\ sftp_client (self st') = sftp_client (self st).
Proof.
  unfold _retrieve_ssh_key. intros H. unfold_monad_in H.
  destruct (ssh_private_key_file (self st)) as [file |]; simpl in H.
  - destruct (from_private_key_file env file _); inversion H; subst; simpl; auto.
  - inversion H; subst; auto.
Qed.

Lemma _create_ssh_client_Ok env kw st c st' :
  _create_ssh_client env kw st = (Ok c, st') ->
  c = SSHClientObj
  /\ ssh_client (self st') = Bound SSHClientObj
  /\ scp_client (self st') = scp_client (self st)
  /\ sftp_client (self st') = sftp_client (self st).
Proof.
  unfold _create_ssh_client. intros H. unfold_monad_in H.
  branches H; inversion H; subst; simpl; auto.
Qed.

Lemma _create_scp_client_Ok env callback st c st' :
  scp_client (self st) = Absent ->
  _create_scp_client env callback st = (Ok c, st') ->
  (exists transport,
     transport_of_connection env = Some transport
     /\ c = SCPClientObj transport callback)
  /\ ssh_client (self st') = ssh_client (self st)
  /\ sftp_client (self st') = sftp_client (self st).
Proof.
  unfold _create_scp_client. intros Habs H. unfold_monad_in H.
  branches H; inversion H; subst; simpl in *.
  - split; [eexists; split; [reflexivity |] | auto]. congruence.
  - congruence.
Qed.

Lemma _create_sftp_client_Ok env st c st' :
  _create_sftp_client env st = (Ok c, st') ->
  c = SFTPClientObj
  /\ ssh_client (self st') = ssh_client (self st)
  /\ scp_client (self st') = scp_client (self st).
Proof.
  unfold _create_sftp_client. intros H. unfold_monad_in H.
  branches H; inversion H; subst; simpl; auto.
Qed.

(** A session that opened has its three clients, each of its class. *)
Lemma opened_clients env st :
  opened env st ->
  ssh_client (self st) = Bound SSHClientObj
  /\ (exists transport,
        transport_of_connection env = Some transport
        /\ scp_client (self st) = Bound (SCPClientObj transport ProgressText))
  /\ sftp_client (self st) = Bound SFTPClientObj.
Proof.
  intros (h & p & u & pw & creds & pol & st0 & H).
  unfold __init__ in H.
  apply bind_inv_Ok in H. destruct H as ([] & s1 & H1 & H).
  apply bind_inv_Ok in H. destruct H as (k & s2 & H2 & H).
  apply bind_inv_Ok in H. destruct H as (c3 & s3 & H3 & H).
  apply bind_inv_Ok in H. destruct H as ([] & s4 & H4 & H).
  apply bind_inv_Ok in H. destruct H as (c5 & s5 & H5 & H).
  apply bind_inv_Ok in H. destruct H as ([] & s6 & H6 & H).
  apply bind_inv_Ok in H. destruct H as (c7 & s7 & H7 & H).
  apply init_attributes_clients in H1. destruct H1 as (A1 & B1 & C1).
  apply _retrieve_ssh_key_clients in H2. destruct H2 as (A2 & B2 & C2).
  apply _create_ssh_client_Ok in H3. destruct H3 as (-> & A3 & B3 & C3).
  unfold_monad_in H4. inversion H4; subst s4; clear H4.
  apply _create_scp_client_Ok in H5; [| simpl; congruence].
  destruct H5 as ((t & Ht & ->) & A5 & C5).
  unfold_monad_in H6. inversion H6; subst s6; clear H6.
  apply _create_sftp_client_Ok in H7. destruct H7 as (-> & A7 & B7).
  unfold_monad_in H. inversion H; subst st; clear H. simpl in *.
  repeat split.
  - congruence.
  - exists t. split; [exact Ht |]. congruence.
Qed.



Lemma quiet_session_opened : opened quiet_env (session quiet_env).
Proof.
  exists "10.0.0.5", 22, (Some "bob"), (Some "x"), None, AutoAddPolicy, start.
  vm_compute. reflexivity.
Qed.



(* ===================================================================== *)
(** ** Downloads *)
(* ===================================================================== *)








(* ===================================================================== *)
(** ** Commands *)
(* ===================================================================== *)





(* ===================================================================== *)
(** ** Uploads *)
(* ===================================================================== *)

(** The loop of lines 344-350, one round written as the source has it. *)
Lemma _upload_files_cons env client source sources destination recursive kw :
  _upload_files env client (source :: sources) destination recursive kw
  = (when (is_file source) (_upload_file env client source destination kw) ;;
     when (is_dir source && recursive)
       (for_each (iterdir source) (fun item =>
          _upload_files env client [item] destination false kw))) ;;
    _upload_files env client sources destination recursive kw.
Proof.
  unfold _upload_files. rewrite for_each_cons.
  destruct source; reflexivity.
Qed.

Lemma _upload_file_scp env st source destination kw :
  has_clients st ->
  _upload_file env Client.SCPClient source destination kw st
  = (result_of (scp_put_outcome env (path_str source) destination),
     record (EScpPut (path_str source) destination) st).
Proof.
  intros (A & (t & cb & B) & C).
  unfold _upload_file, _get_client. unfold_monad. rewrite B. reflexivity.
Qed.

(** Below a directory met with [recursive] false nothing is uploaded. *)
Lemma _upload_source_not_recursive env st client source destination kw :
  is_file source = false ->
  _upload_source env client source destination false kw st = (Ok tt, st).
Proof. intros H. destruct source; [discriminate H | reflexivity | reflexivity]. Qed.

(** What [_upload_files] uploads over SCP when no [put] fails: each source
    that is a regular file and, with [recursive], the regular files directly
    inside each source that is a directory; nothing deeper. *)
Lemma _upload_files_scp_shallow env st sources destination recursive kw :
  has_clients st ->
  (forall p, scp_put_outcome env p destination = None) ->
  _upload_files env Client.SCPClient sources destination recursive kw st
  = (Ok tt,
     record_all
       (map (fun p => EScpPut p destination)
            (flat_map (shallow_files recursive) sources)) st).
Proof.
  intros Hst Hput.
  assert (Hitems : forall items st,
    has_clients st ->
    for_each items (fun item =>
      for_each [item] (fun source' =>
        _upload_source env Client.SCPClient source' destination false kw)) st
    = (Ok tt,
       record_all (map (fun p => EScpPut p destination)
                       (map path_str (filter is_file items))) st)).
  { induction items as [| item items IH]; intros st0 Hst0.
    - simpl. rewrite record_all_nil. reflexivity.
    - rewrite for_each_cons. destruct item as [p | p sub | p].
      + erewrite bind_Ok with (a := tt)
          (s' := record (EScpPut p destination) st0).
        * rewrite IH by exact Hst0. simpl. rewrite record_record_all. reflexivity.
        * simpl. unfold when. erewrite bind_Ok; [reflexivity |].
          erewrite bind_Ok; [reflexivity |].
          rewrite _upload_file_scp by exact Hst0. simpl. rewrite Hput. reflexivity.
      + erewrite bind_Ok by reflexivity. apply IH. exact Hst0.
      + erewrite bind_Ok by reflexivity. apply IH. exact Hst0. }
  revert st Hst. induction sources as [| source sources IH]; intros st Hst.
  - unfold _upload_files. simpl. rewrite record_all_nil. reflexivity.
  - unfold _upload_files in *. rewrite for_each_cons.
    erewrite bind_Ok with (a := tt)
      (s' := record_all (map (fun p => EScpPut p destination)
                             (shallow_files recursive source)) st).
    + rewrite IH by exact Hst. rewrite record_all_app.
      simpl flat_map. rewrite map_app. reflexivity.
    + destruct source as [p | p items | p]; simpl.
      * unfold when. erewrite bind_Ok; [reflexivity |].
        rewrite _upload_file_scp by exact Hst. simpl. rewrite Hput. reflexivity.
      * erewrite bind_Ok by reflexivity. destruct recursive; simpl.
        -- apply Hitems. exact Hst.
        -- rewrite record_all_nil. reflexivity.
      * rewrite record_all_nil. reflexivity.
Qed.

(** C1, at the input of the scenario.  [_upload_files] over SCP with
    [recursive] true, on [dirA/] holding [f1.txt] and [sub/f2.txt], uploads
    [dirA/f1.txt] to the destination and returns: [dirA/sub/f2.txt], a
    descendant file of the source, is not uploaded. *)
Theorem upload_files_recursive_misses_nested :
  _upload_files quiet_env Client.SCPClient [dirA] "/remote/dst" true []
    (session quiet_env)
  = (Ok tt, record (EScpPut "dirA/f1.txt" "/remote/dst") (session quiet_env))
  /\ descendant_files dirA = ["dirA/f1.txt"; "dirA/sub/f2.txt"]
  /\ ~ In (EScpPut "dirA/sub/f2.txt" "/remote/dst")
          (trace (world (snd (_upload_files quiet_env Client.SCPClient [dirA]
                                "/remote/dst" true [] (session quiet_env))))).
Proof.
  split; [vm_compute; reflexivity |]. split; [reflexivity |].
  vm_compute. intros H.
  repeat (destruct H as [H | H]; [discriminate H |]). exact H.
Qed.

(* ===================================================================== *)
(** ** The constructor *)
(* ===================================================================== *)

(** Without a transport the constructor cannot return. *)
Lemma no_transport_not_opened env st :
  transport_of_connection env = None -> ~ opened env st.
Proof.
  intros Hnone Hopen. apply opened_clients in Hopen.
  destruct Hopen as (_ & (t & Ht & _) & _). congruence.
Qed.

(** With a connection but no transport, [_create_scp_client] raises at its
    [return self.scp_client]. *)
Lemma _create_scp_client_no_transport env callback st :
  transport_of_connection env = None ->
  ssh_client (self st) = Bound SSHClientObj ->
  scp_client (self st) = Absent ->
  _create_scp_client env callback st
  = (Raise (AttributeError "scp_client"), record EGetTransport st).
Proof.
  intros Hnone Hssh Hscp. unfold _create_scp_client.
  erewrite bind_Ok by (apply getattr_Bound; exact Hssh).
  erewrite bind_Ok by reflexivity. erewrite bind_Ok by reflexivity.
  rewrite Hnone. erewrite bind_Ok by reflexivity.
  apply getattr_Absent. exact Hscp.
Qed.

(** A transfer asked of a client attribute that holds [None], or that was
    never assigned. *)
Lemma _download_file_unset_scp env st source destination recursive kw :
  (scp_client (self st) = Bound PyNone ->
   _download_file env Client.SCPClient source destination recursive kw st
   = (Raise (Exception "SCPClient not currently supported"), st))
  /\ (scp_client (self st) = Absent ->
      _download_file env Client.SCPClient source destination recursive kw st
      = (Raise (AttributeError "scp_client"), st)).
Proof.
  unfold _download_file, _get_client. unfold_monad.
  split; intros ->; reflexivity.
Qed.

(** C3, at the failing input.  When the connection is made and
    [get_transport()] gives [None], the constructor raises
    [AttributeError] for [scp_client]: no session comes out of it, the SFTP
    client is never asked for, and the attribute [scp_client] was never
    bound. *)
Theorem init_without_transport_raises :
  fst (bob env_no_transport start) = Raise (AttributeError "scp_client")
  /\ trace (world (session env_no_transport))
     = [ESSHClient; ESetMissingHostKeyPolicy AutoAddPolicy; ELoadSystemHostKeys;
        EConnect (password_connect_args
                    (new_object "10.0.0.5" 22 (Some "bob") (Some "x") AutoAddPolicy)
                    []);
        EGetTransport]
  /\ ssh_client (self (session env_no_transport)) = Bound SSHClientObj
  /\ scp_client (self (session env_no_transport)) = Absent
  /\ sftp_client (self (session env_no_transport)) = Absent.
Proof. repeat split. Qed.




(** C5.  Without a key-path triple and without both a user name and a
    password that are non-empty, the credential part of the constructor
    returns, having called nothing; the failure comes from
    [_create_ssh_client], which raises
    [Exception("Invalid credentials supplied. ...")] once the SSH client
    object is set up and before any [connect], and this is what the
    constructor raises. *)
Theorem insufficient_credentials_raised_on_open env h p u pw pol st :
  truthy_str u && truthy_str pw = false ->
  resolve_credentials env h p u pw None pol st = (Ok None, fresh h p u pw pol st)
  /\ _create_ssh_client env [] (fresh h p u pw pol st)
     = (Raise (Exception invalid_credentials),
        record_all [ESSHClient; ESetMissingHostKeyPolicy pol; ELoadSystemHostKeys]
          (fresh h p u pw pol st))
  /\ __init__ env h p u pw None pol st
     = (Raise (Exception invalid_credentials),
        record_all [ESSHClient; ESetMissingHostKeyPolicy pol; ELoadSystemHostKeys]
          (fresh h p u pw pol st)).
Proof.
  intros H.
  assert (E : _create_ssh_client env [] (fresh h p u pw pol st)
              = (Raise (Exception invalid_credentials),
                 record_all [ESSHClient; ESetMissingHostKeyPolicy pol;
                             ELoadSystemHostKeys] (fresh h p u pw pol st))).
  { unfold _create_ssh_client. unfold_monad. rewrite H. same_state. }
  split; [reflexivity |]. split; [exact E |].
  unfold __init__. erewrite bind_Ok by reflexivity.
  erewrite bind_Ok by reflexivity. erewrite bind_Raise by exact E. reflexivity.
Qed.

Lemma insufficient_credentials_raised_on_open_witness :
  resolve_credentials quiet_env "10.0.0.5" 22 (Some "bob") None None AutoAddPolicy
    start
  = (Ok None, fresh "10.0.0.5" 22 (Some "bob") None AutoAddPolicy start)
  /\ _create_ssh_client quiet_env []
       (fresh "10.0.0.5" 22 (Some "bob") None AutoAddPolicy start)
     = (Raise (Exception invalid_credentials),
        record_all [ESSHClient; ESetMissingHostKeyPolicy AutoAddPolicy;
                    ELoadSystemHostKeys]
          (fresh "10.0.0.5" 22 (Some "bob") None AutoAddPolicy start))
  /\ __init__ quiet_env "10.0.0.5" 22 (Some "bob") None None AutoAddPolicy start
     = (Raise (Exception invalid_credentials),
        record_all [ESSHClient; ESetMissingHostKeyPolicy AutoAddPolicy;
                    ELoadSystemHostKeys]
          (fresh "10.0.0.5" 22 (Some "bob") None AutoAddPolicy start)).
Proof.
  apply (insufficient_credentials_raised_on_open quiet_env "10.0.0.5" 22
           (Some "bob") None AutoAddPolicy start).
  reflexivity.
Defined.





(* ===================================================================== *)
(** ** [disconnect] *)
(* ===================================================================== *)



(** An SFTP client that is absent, or [None], is passed over. *)
Lemma disconnect_without_sftp env st transport callback :
  ssh_client (self st) = Bound SSHClientObj ->
  scp_client (self st) = Bound (SCPClientObj transport callback) ->
  sftp_client (self st) = Absent \/ sftp_client (self st) = Bound PyNone ->
  (forall c, close_outcome env c = None) ->
  disconnect env st
  = (Ok tt, closed_client Client.SCPClient (closed_client Client.SSHClient st)).
Proof.
  intros A B C Hclose.
  destruct st as [o w]. destruct o. simpl in A, B, C. subst.
  unfold disconnect, close_obj. unfold_monad.
  rewrite !Hclose. simpl. destruct C as [-> | ->]; reflexivity.
Qed.




(* ===================================================================== *)
(** ** [float(size)] is zero only for [size = 0] *)
(* ===================================================================== *)

Lemma shr_1_div2 mrs : 0 <= shr_m mrs -> shr_m (shr_1 mrs) = shr_m mrs / 2.
Proof.
  destruct mrs as [m r s]. simpl. intros Hm. rewrite <- Z.div2_div.
  destruct m as [| [p | p |] | p]; try reflexivity. lia.
Qed.

Lemma iter_pos_shr_1 n : forall mrs,
  0 <= shr_m mrs ->
  shr_m (iter_pos shr_1 n mrs) = shr_m mrs / 2 ^ Zpos n.
Proof.
  induction n as [n IH | n IH |]; intros mrs Hm; simpl iter_pos.
  - assert (P : 0 < 2 ^ Zpos n) by (apply Z.pow_pos_nonneg; lia).
    assert (H1 : 0 <= shr_m (shr_1 mrs)).
    { rewrite shr_1_div2 by exact Hm. apply Z.div_pos; lia. }
    assert (H2 : 0 <= shr_m (iter_pos shr_1 n (shr_1 mrs))).
    { rewrite IH by exact H1. apply Z.div_pos; [exact H1 | exact P]. }
    rewrite IH by exact H2. rewrite IH by exact H1.
    rewrite shr_1_div2 by exact Hm.
    rewrite !Z.div_div by lia. f_equal.
    replace (Zpos n~1) with (1 + (Zpos n + Zpos n)) by lia.
    rewrite !Z.pow_add_r by lia. reflexivity.
  - assert (P : 0 < 2 ^ Zpos n) by (apply Z.pow_pos_nonneg; lia).
    assert (H1 : 0 <= shr_m (iter_pos shr_1 n mrs)).
    { rewrite IH by exact Hm. apply Z.div_pos; [exact Hm | exact P]. }
    rewrite IH by exact H1. rewrite IH by exact Hm.
    rewrite Z.div_div by lia. f_equal.
    replace (Zpos n~0) with (Zpos n + Zpos n) by lia.
    rewrite Z.pow_add_r by lia. reflexivity.
  - rewrite shr_1_div2 by exact Hm. reflexivity.
Qed.

Lemma digits2_pos_lower p : 2 ^ (Zpos (digits2_pos p) - 1) <= Zpos p.
Proof.
  induction p as [p IH | p IH |]; simpl digits2_pos.
  - rewrite Pos2Z.inj_succ.
    replace (Z.succ (Zpos (digits2_pos p)) - 1)
      with (Zpos (digits2_pos p) - 1 + 1) by lia.
    rewrite Z.pow_add_r by lia. lia.
  - rewrite Pos2Z.inj_succ.
    replace (Z.succ (Zpos (digits2_pos p)) - 1)
      with (Zpos (digits2_pos p) - 1 + 1) by lia.
    rewrite Z.pow_add_r by lia. lia.
  - simpl. lia.
Qed.

Lemma shr_positive m r s n :
  0 < m -> Zpos n < Zdigits2 m ->
  0 < shr_m (iter_pos shr_1 n {| shr_m := m; shr_r := r; shr_s := s |}).
Proof.
  intros Hm Hn. rewrite iter_pos_shr_1 by (simpl; lia). simpl shr_m.
  destruct m as [| p | p]; try lia. simpl in Hn.
  pose proof (digits2_pos_lower p) as Hd.
  assert (Hle : 2 ^ Zpos n <= 2 ^ (Zpos (digits2_pos p) - 1))
    by (apply Z.pow_le_mono_r; lia).
  apply Z.div_str_pos. split; [apply Z.pow_pos_nonneg; lia | lia].
Qed.

Lemma shr_fexp_positive m e l :
  0 < m -> emin prec emax <= e ->
  0 < shr_m (fst (shr_fexp prec emax m e l))
  /\ emin prec emax <= snd (shr_fexp prec emax m e l).
Proof.
  intros Hm He. unfold shr_fexp, shr.
  assert (Hd : 0 < Zdigits2 m) by (destruct m; simpl; lia).
  destruct (fexp prec emax (Zdigits2 m + e) - e) as [| n | n] eqn:Hn; simpl.
  - split; [destruct l as [| []]; exact Hm | exact He].
  - split; [| lia].
    assert (Hlt : Zpos n < Zdigits2 m).
    { rewrite <- Hn. unfold fexp, emin, prec, emax in *. lia. }
    destruct l as [| []]; apply shr_positive; assumption.
  - split; [destruct l as [| []]; exact Hm | exact He].
Qed.

Lemma round_nearest_even_positive m l : 0 < m -> 0 < round_nearest_even m l.
Proof.
  intros Hm. destruct l as [| []]; simpl; try lia.
  destruct (Z.even m); lia.
Qed.

Lemma binary_round_aux_nonzero sx m e l :
  0 < m -> emin prec emax <= e ->
  is_zero (binary_round_aux prec emax sx m e l) = false.
Proof.
  intros Hm He. unfold binary_round_aux.
  destruct (shr_fexp_positive m e l Hm He) as (H1 & H2).
  destruct (shr_fexp prec emax m e l) as [mrs' e']. simpl in H1, H2.
  pose proof (round_nearest_even_positive (shr_m mrs') (loc_of_shr_record mrs') H1)
    as H3.
  destruct (shr_fexp_positive _ e' loc_Exact H3 H2) as (H4 & _).
  destruct (shr_fexp prec emax _ e' loc_Exact) as [mrs'' e'']. simpl in H4.
  destruct (shr_m mrs'') as [| q | q]; try lia.
  destruct (e'' <=? emax - prec); reflexivity.
Qed.

Lemma binary_round_nonzero sx p : is_zero (binary_round prec emax sx p 0) = false.
Proof.
  unfold binary_round, shl_align.
  assert (H : emin prec emax <= fexp prec emax (Zpos (digits2_pos p) + 0))
    by (unfold fexp; lia).
  destruct (fexp prec emax (Zpos (digits2_pos p) + 0) - 0) eqn:E;
    apply binary_round_aux_nonzero; try lia; unfold emin, prec, emax; lia.
Qed.

(** The conversion of a non-zero integer is not a zero. *)
Lemma to_float_nonzero z : z <> 0 -> is_zero (to_float z) = false.
Proof.
  intros Hz. unfold to_float, binary_normalize.
  destruct z as [| p | p]; [congruence | apply binary_round_nonzero ..].
Qed.

(* ===================================================================== *)
(** ** The progress callback *)
(* ===================================================================== *)

Lemma float_of_int_in_range {S : Type} z (s : S) :
  overflows z = false -> float_of_int z s = (Ok (to_float z), s).
Proof.
  unfold overflows, float_of_int. destruct (to_float z); intros H;
    [reflexivity | discriminate H | reflexivity | reflexivity].
Qed.

(** C10.  For a file name that is valid UTF-8, a peer name of at least two
    members and integers within the range of a double:
    - when [size] is zero the callback raises [ZeroDivisionError] and writes
      nothing;
    - when [size] is not zero it writes one line, the prefix, then
      [100 * (sent / float(size))] with two decimals and a percent sign, ended
      by a carriage return while [sent < size] and by a line feed
      otherwise. *)
Theorem progress_callback_needs_nonzero_size file size sent host port rest out :
  utf8_valid file = true ->
  overflows sent = false ->
  overflows size = false ->
  (size = 0 ->
   _scp_client_progress_text_callback file size sent (host :: port :: rest) out
   = (Raise ZeroDivisionError, out))
  /\ (size <> 0 ->
      _scp_client_progress_text_callback file size sent (host :: port :: rest) out
      = (Ok tt,
         app out [(py_str host ++ ":" ++ py_str port ++ " | "
                     ++ string_of_list_byte file)
                    ++ " | " ++ format_2f (percentage_of sent size) ++ "%"
                    ++ (if sent <? size then CR else LF)])).
Proof.
  intros Hfile Hsent Hsize.
  unfold _scp_client_progress_text_callback, bytes_decode, int_truediv_float,
    int_mul_float, tuple_getitem.
  simpl nth_error. rewrite Hfile.
  split; intros Hz.
  - subst size.
    erewrite bind_Ok by reflexivity. erewrite bind_Ok by reflexivity.
    erewrite bind_Ok by reflexivity. erewrite bind_Ok by reflexivity.
    erewrite bind_Raise; [reflexivity |].
    erewrite bind_Ok by (apply float_of_int_in_range; exact Hsent).
    reflexivity.
  - erewrite bind_Ok by reflexivity. erewrite bind_Ok by reflexivity.
    erewrite bind_Ok by reflexivity.
    erewrite bind_Ok by (apply float_of_int_in_range; exact Hsize).
    erewrite bind_Ok with (a := SFdiv prec emax (to_float sent) (to_float size)).
    2:{ erewrite bind_Ok by (apply float_of_int_in_range; exact Hsent).
        rewrite (to_float_nonzero size Hz). reflexivity. }
    erewrite bind_Ok with (a := percentage_of sent size).
    2:{ erewrite bind_Ok by (apply float_of_int_in_range; reflexivity).
        reflexivity. }
    unfold stdout_write, modify.
    destruct (sent <? size); reflexivity.
Qed.

Lemma progress_callback_needs_nonzero_size_witness :
  _scp_client_progress_text_callback (list_byte_of_string "f1.txt") 0 0
    [PyStr "10.0.0.5"; PyInt 22] []
  = (Raise ZeroDivisionError, [])
  /\ _scp_client_progress_text_callback (list_byte_of_string "f1.txt") 3 1
       [PyStr "10.0.0.5"; PyInt 22] []
     = (Ok tt, ["10.0.0.5:22 | f1.txt | 33.33%" ++ CR])
  /\ _scp_client_progress_text_callback (list_byte_of_string "f1.txt") 3 3
       [PyStr "10.0.0.5"; PyInt 22] []
     = (Ok tt, ["10.0.0.5:22 | f1.txt | 100.00%" ++ LF]).
Proof.
  split; [| split].
  - apply (proj1 (progress_callback_needs_nonzero_size
                    (list_byte_of_string "f1.txt") 0 0 (PyStr "10.0.0.5")
                    (PyInt 22) [] [] eq_refl eq_refl eq_refl)).
    reflexivity.
  - apply (proj2 (progress_callback_needs_nonzero_size
                    (list_byte_of_string "f1.txt") 3 1 (PyStr "10.0.0.5")
                    (PyInt 22) [] [] eq_refl eq_refl eq_refl)).
    discriminate.
  - apply (proj2 (progress_callback_needs_nonzero_size
                    (list_byte_of_string "f1.txt") 3 3 (PyStr "10.0.0.5")
                    (PyInt 22) [] [] eq_refl eq_refl eq_refl)).
    discriminate.
Defined.

(* ===================================================================== *)
(** ** Which calls a computation can make *)
(* ===================================================================== *)

Lemma appends_silent P {A : Type} (m : M State A) :
  (forall st r st', m st = (r, st') -> world st' = world st) ->
  appends P m.
Proof.
  intros Hm st r st' H. exists []. apply Hm in H. unfold closed_status.
  rewrite H, app_nil_r. repeat split. constructor.
Qed.

Lemma appends_ret P {A : Type} (a : A) : appends P (ret a : M State A).
Proof. apply appends_silent. intros st r st' H. inversion H. reflexivity. Qed.

Lemma appends_raise P {A : Type} e : appends P (raise e : M State A).
Proof. apply appends_silent. intros st r st' H. inversion H. reflexivity. Qed.

Lemma appends_outcome P o : appends P (outcome o : M State unit).
Proof. apply appends_silent. intros st r st' H. inversion H. reflexivity. Qed.

Lemma appends_get_self P : appends P get_self.
Proof. apply appends_silent. intros st r st' H. inversion H. reflexivity. Qed.

Lemma appends_set_self P f : appends P (set_self f).
Proof. apply appends_silent. intros st r st' H. inversion H. reflexivity. Qed.

Lemma appends_log (P : event -> Prop) ev : P ev -> appends P (log ev).
Proof.
  intros Hev st r st' H. inversion H; subst. exists [ev].
  repeat split. constructor; [exact Hev | constructor].
Qed.

Lemma appends_bind P {A B : Type} (m : M State A) (k : A -> M State B) :
  appends P m -> (forall a, appends P (k a)) -> appends P (bind m k).
Proof.
  intros Hm Hk st r st' H. unfold bind in H.
  destruct (m st) as [[a | e] s1] eqn:E.
  - destruct (Hm _ _ _ E) as (evs1 & T1 & F1 & C1).
    destruct (Hk a _ _ _ H) as (evs2 & T2 & F2 & C2).
    exists (evs1 ++ evs2)%list. rewrite T2, T1, app_assoc.
    repeat split; [apply Forall_app; split; assumption | congruence].
  - inversion H; subst. exact (Hm _ _ _ E).
Qed.

Lemma appends_try_except P {A : Type} (m : M State A) handler :
  appends P m -> (forall e, appends P (handler e)) ->
  appends P (try_except m handler).
Proof.
  intros Hm Hh st r st' H. unfold try_except in H.
  destruct (m st) as [[a | e] s1] eqn:E.
  - inversion H; subst. exact (Hm _ _ _ E).
  - destruct (Hm _ _ _ E) as (evs1 & T1 & F1 & C1).
    destruct (Hh e _ _ _ H) as (evs2 & T2 & F2 & C2).
    exists (evs1 ++ evs2)%list. rewrite T2, T1, app_assoc.
    repeat split; [apply Forall_app; split; assumption | congruence].
Qed.

Lemma appends_call (P : event -> Prop) ev o : P ev -> appends P (call ev o).
Proof.
  intros Hev. unfold call. apply appends_bind;
    [apply appends_log; exact Hev | intros _; apply appends_outcome].
Qed.

Lemma appends_getattr P name slot : appends P (getattr name slot).
Proof.
  unfold getattr. apply appends_bind; [apply appends_get_self |].
  intros o. destruct (slot o); [apply appends_raise | apply appends_ret].
Qed.

Lemma appends_ssh_method P method obj : appends P (ssh_method method obj).
Proof. destruct obj; simpl; first [apply appends_ret | apply appends_raise]. Qed.

Lemma appends_for_each P {A : Type} (xs : list A) (body : A -> M State unit) :
  (forall x, In x xs -> appends P (body x)) -> appends P (for_each xs body).
Proof.
  induction xs as [| x xs IH]; intros Hbody.
  - apply (appends_ret P tt).
  - rewrite for_each_cons. apply appends_bind.
    + apply Hbody. left. reflexivity.
    + intros _. apply IH. intros y Hy. apply Hbody. right. exact Hy.
Qed.

Lemma appends_weaken (P Q : event -> Prop) {A : Type} (m : M State A) :
  (forall ev, P ev -> Q ev) -> appends P m -> appends Q m.
Proof.
  intros HPQ Hm st r st' H. destruct (Hm _ _ _ H) as (evs & T & F & C).
  exists evs. repeat split; try assumption.
  eapply Forall_impl; [exact HPQ | exact F].
Qed.

Lemma appends_init_attributes env h p u pw creds pol :
  appends constructor_event (init_attributes env h p u pw creds pol).
Proof.
  unfold init_attributes. apply appends_bind; [apply appends_set_self |].
  intros _. destruct creds as [[[priv pub] pass] |]; [| apply appends_ret].
  apply appends_bind; [apply appends_log; exact I |]. intros _.
  apply appends_bind; [apply appends_log; exact I |]. intros _.
  destruct (path_exists env priv && path_exists env pub);
    [apply appends_set_self | apply appends_raise].
Qed.

Lemma appends__retrieve_ssh_key env :
  appends constructor_event (_retrieve_ssh_key env).
Proof.
  unfold _retrieve_ssh_key. apply appends_bind; [apply appends_get_self |].
  intros o. destruct (ssh_private_key_file o) as [file |]; [| apply appends_ret].
  apply appends_bind; [apply appends_log; exact I |]. intros _.
  destruct (from_private_key_file env file (ssh_key_passphrase o));
    [| apply appends_raise].
  apply appends_bind; [apply appends_set_self | intros _; apply appends_ret].
Qed.

Lemma appends__create_ssh_client env kw :
  appends constructor_event (_create_ssh_client env kw).
Proof.
  unfold _create_ssh_client. apply appends_try_except.
  - apply appends_bind; [apply appends_log; exact I |]. intros _.
    apply appends_bind; [apply appends_get_self |]. intros o.
    apply appends_bind; [apply appends_log; exact I |]. intros _.
    apply appends_bind; [apply appends_log; exact I |]. intros _.
    apply appends_bind.
    + destruct (ssh_private_key o) as [key |].
      * apply appends_call. simpl. repeat split.
      * destruct (truthy_str (username o) && truthy_str (password o));
          [apply appends_call; simpl; repeat split | apply appends_raise].
    + intros _. apply appends_bind; [apply appends_set_self |].
      intros _. apply appends_ret.
  - intros e. destruct e; apply appends_raise.
Qed.

Lemma appends__create_scp_client env callback :
  appends constructor_event (_create_scp_client env callback).
Proof.
  unfold _create_scp_client.
  apply appends_bind; [apply appends_getattr |]. intros c.
  apply appends_bind; [apply appends_ssh_method |]. intros _.
  apply appends_bind; [apply appends_log; exact I |]. intros _.
  apply appends_bind; [| intros _; apply appends_getattr].
  destruct (transport_of_connection env); [| apply appends_ret].
  apply appends_bind; [apply appends_log; exact I |].
  intros _. apply appends_set_self.
Qed.

Lemma appends__create_sftp_client env :
  appends constructor_event (_create_sftp_client env).
Proof.
  unfold _create_sftp_client.
  apply appends_bind; [apply appends_getattr |]. intros c.
  apply appends_bind; [apply appends_ssh_method |]. intros _.
  apply appends_bind; [apply appends_call; exact I |]. intros _.
  apply appends_bind; [apply appends_set_self |]. intros _.
  apply appends_getattr.
Qed.

(** X1.  Whatever the constructor returns or raises, and whatever the
    collaborators answer, the calls it makes are those of setting up:
    it never closes a client, transfers a file or runs a command, and a
    [connect] it makes has the SSH agent and the search for keys in [~/.ssh]
    switched off and a timeout of 5000.  The closed status of the clients is
    as before. *)
Theorem constructor_only_sets_up env h p u pw creds pol st r st' :
  __init__ env h p u pw creds pol st = (r, st') ->
  exists evs,
    trace (world st') = (trace (world st) ++ evs)%list
    /\ Forall constructor_event evs
    /\ (forall c, ~ In (EClose c) evs)
    /\ (forall args, In (EConnect args) evs ->
          timeout args = 5000 /\ allow_agent args = false
          /\ look_for_keys args = false)
    /\ closed_status st' = closed_status st.
Proof.
  intros H.
  assert (Happ : appends constructor_event (__init__ env h p u pw creds pol)).
  { unfold __init__.
    apply appends_bind; [apply appends_init_attributes |]. intros _.
    apply appends_bind; [apply appends__retrieve_ssh_key |]. intros _.
    apply appends_bind; [apply appends__create_ssh_client |]. intros c.
    apply appends_bind; [apply appends_set_self |]. intros _.
    apply appends_bind; [apply appends__create_scp_client |]. intros c'.
    apply appends_bind; [apply appends_set_self |]. intros _.
    apply appends_bind; [apply appends__create_sftp_client |]. intros c''.
    apply appends_set_self. }
  destruct (Happ _ _ _ H) as (evs & T & F & C).
  exists evs. rewrite Forall_forall in F.
  repeat split; try assumption.
  - rewrite Forall_forall. exact F.
  - intros c Hin. exact (F _ Hin).
  - exact (proj1 (F _ H0)).
  - exact (proj1 (proj2 (F _ H0))).
  - exact (proj2 (proj2 (F _ H0))).
Qed.

Lemma constructor_only_sets_up_witness :
  exists evs,
    trace (world (session env_no_transport)) = (trace (world start) ++ evs)%list
    /\ Forall constructor_event evs
    /\ (forall c, ~ In (EClose c) evs)
    /\ (forall args, In (EConnect args) evs ->
          timeout args = 5000 /\ allow_agent args = false
          /\ look_for_keys args = false)
    /\ closed_status (session env_no_transport) = closed_status start.
Proof.
  apply (constructor_only_sets_up env_no_transport "10.0.0.5" 22 (Some "bob")
           (Some "x") None AutoAddPolicy start
           (fst (bob env_no_transport start))).
  vm_compute. reflexivity.
Defined.



(** X3.  When both key files exist and the private key cannot be loaded (a
    wrong passphrase, a file that is no key), the constructor raises what the
    loading raised, having made no other call than the two tests and the
    loading: no SSH client is set up and nothing goes to the network. *)
Theorem key_load_failure_before_network env h p u pw priv pub pass pol st e :
  path_exists env priv = true ->
  path_exists env pub = true ->
  from_private_key_file env priv pass = Raise e ->
  __init__ env h p u pw (Some (priv, pub, pass)) pol st
  = (Raise e,
     {| self := set_key_files (Some priv) (Some pub) pass
                  (new_object h p u pw pol);
        world :=
          world (record_all [EPathExists priv; EPathExists pub;
                             EFromPrivateKeyFile priv pass] st) |}).
Proof.
  intros Hpriv Hpub Hkey.
  unfold __init__, init_attributes, _retrieve_ssh_key. unfold_monad.
  rewrite Hpriv, Hpub. simpl. rewrite Hkey. simpl. same_state.
Qed.

Lemma key_load_failure_before_network_witness :
  __init__ env_bad_passphrase "10.0.0.5" 22 (Some "bob") (Some "x")
    (Some ("id_rsa", "id_rsa.pub", Some "wrong")) AutoAddPolicy start
  = (Raise (Passthrough "SSHException"),
     {| self := set_key_files (Some "id_rsa") (Some "id_rsa.pub") (Some "wrong")
                  (new_object "10.0.0.5" 22 (Some "bob") (Some "x") AutoAddPolicy);
        world :=
          world (record_all [EPathExists "id_rsa"; EPathExists "id_rsa.pub";
                             EFromPrivateKeyFile "id_rsa" (Some "wrong")] start) |}).
Proof.
  apply (key_load_failure_before_network env_bad_passphrase "10.0.0.5" 22
           (Some "bob") (Some "x") "id_rsa" "id_rsa.pub" (Some "wrong")
           AutoAddPolicy start (Passthrough "SSHException"));
    reflexivity.
Defined.



(* ===================================================================== *)
(** ** Sequences of calls *)
(* ===================================================================== *)

Lemma bind_assoc {S A B C : Type} (m : M S A) (f : A -> M S B) (g : B -> M S C) s :
  bind (bind m f) g s = bind m (fun a => bind (f a) g) s.
Proof. unfold bind. destruct (m s) as [[a | e] s1]; reflexivity. Qed.

Lemma bind_ret_r {S : Type} (m : M S unit) s :
  bind m (fun _ => ret tt) s = m s.
Proof. unfold bind, ret. destruct (m s) as [[[] | e] s1]; reflexivity. Qed.





(* ===================================================================== *)
(** ** More on the transfers *)
(* ===================================================================== *)














Lemma upload_items_nothing env client destination kw items : forall st,
  filter is_file items = [] ->
  for_each items (fun item =>
    for_each [item] (fun source' =>
      _upload_source env client source' destination false kw)) st
  = (Ok tt, st).
Proof.
  induction items as [| item items IH]; intros st Hnone; [reflexivity |].
  rewrite for_each_cons. simpl in Hnone.
  destruct (is_file item) eqn:Hitem; [discriminate Hnone |].
  erewrite bind_Ok.
  - apply IH. exact Hnone.
  - simpl for_each. rewrite bind_ret_r.
    apply _upload_source_not_recursive. exact Hitem.
Qed.

(** X9.  When no source is a regular file and, with [recursive], no source
    that is a directory has a regular file directly inside, [_upload_files]
    returns without an error and without a call, in any state and for any
    tag: a source that does not exist is passed over in silence, and the tag
    [SSHClient], which no upload supports, is not objected to. *)
Theorem upload_files_nothing_to_upload
    env st client sources destination recursive kw :
  flat_map (shallow_files recursive) sources = [] ->
  _upload_files env client sources destination recursive kw st = (Ok tt, st).
Proof.
  revert st. induction sources as [| source sources IH]; intros st Hnone;
    [reflexivity |].
  simpl in Hnone. apply app_eq_nil in Hnone. destruct Hnone as (Hsource & Hrest).
  unfold _upload_files in *. rewrite for_each_cons. erewrite bind_Ok.
  - apply IH. exact Hrest.
  - destruct source as [q | q items | q]; [discriminate Hsource | | reflexivity].
    simpl _upload_source. erewrite bind_Ok by reflexivity.
    destruct recursive; [| reflexivity]. simpl.
    apply upload_items_nothing. simpl in Hsource.
    destruct (filter is_file items); [reflexivity | discriminate Hsource].
Qed.

Lemma upload_files_nothing_to_upload_witness :
  _upload_files quiet_env Client.SSHClient
    [Neither "gone.txt"; Directory "dirA/sub" [RegularFile "dirA/sub/f2.txt"]]
    "/remote/dst" false [] start
  = (Ok tt, start).
Proof.
  apply (upload_files_nothing_to_upload quiet_env start Client.SSHClient
           [Neither "gone.txt";
            Directory "dirA/sub" [RegularFile "dirA/sub/f2.txt"]]
           "/remote/dst" false []).
  reflexivity.
Defined.

(* ===================================================================== *)
(** ** The helpers for Android hosts *)
(* ===================================================================== *)












(* ===================================================================== *)
(** ** More on [disconnect] and on the SCP client *)
(* ===================================================================== *)







(** X16.  [_create_scp_client] called anew with a callback of the caller:
    when the connection has a transport, a new SCP client with that callback
    is made on it, bound and returned, the client bound before being neither
    closed nor told; when the connection has no transport, the client bound
    before, whatever it is, is returned as it is. *)
Theorem create_scp_client_again env st callback old :
  ssh_client (self st) = Bound SSHClientObj ->
  scp_client (self st) = Bound old ->
  (forall transport,
     transport_of_connection env = Some transport ->
     _create_scp_client env callback st
     = (Ok (SCPClientObj transport callback),
        {| self := set_scp_client (Bound (SCPClientObj transport callback))
                     (self st);
           world := world (record_all [EGetTransport;
                                       ESCPClient transport callback] st) |}))
  /\ (transport_of_connection env = None ->
      _create_scp_client env callback st = (Ok old, record EGetTransport st)).
Proof.
  intros Hssh Hscp. destruct st as [o w].
  destruct o as [u0 pw0 h0 p0 k0 kf0 pf0 pp0 pol0 c1 c2 c3].
  simpl in Hssh, Hscp. subst c1 c2.
  unfold _create_scp_client. unfold_monad. split.
  - intros transport ->. simpl. rewrite <- ?app_assoc. reflexivity.
  - intros ->. reflexivity.
Qed.

Lemma create_scp_client_again_witness :
  _create_scp_client quiet_env (CustomCallback "progress_bar") (session quiet_env)
  = (Ok (SCPClientObj {| peer_host := "10.0.0.5"; peer_port := 22 |}
           (CustomCallback "progress_bar")),
     {| self :=
          set_scp_client
            (Bound (SCPClientObj {| peer_host := "10.0.0.5"; peer_port := 22 |}
                      (CustomCallback "progress_bar")))
            (self (session quiet_env));
        world :=
          world (record_all
                   [EGetTransport;
                    ESCPClient {| peer_host := "10.0.0.5"; peer_port := 22 |}
                      (CustomCallback "progress_bar")] (session quiet_env)) |})
  /\ _create_scp_client env_no_transport (CustomCallback "progress_bar")
       (session quiet_env)
     = (Ok (SCPClientObj {| peer_host := "10.0.0.5"; peer_port := 22 |}
              ProgressText),
        record EGetTransport (session quiet_env)).
Proof.
  split.
  - apply (proj1 (create_scp_client_again quiet_env (session quiet_env)
                    (CustomCallback "progress_bar")
                    (SCPClientObj {| peer_host := "10.0.0.5"; peer_port := 22 |}
                       ProgressText) eq_refl eq_refl)).
    reflexivity.
  - apply (proj2 (create_scp_client_again env_no_transport (session quiet_env)
                    (CustomCallback "progress_bar")
                    (SCPClientObj {| peer_host := "10.0.0.5"; peer_port := 22 |}
                       ProgressText) eq_refl eq_refl)).
    reflexivity.
Defined.

(* ===================================================================== *)
(** ** More on the progress callback *)
(* ===================================================================== *)

(** X17.  The callback looks at the peer name and at the file name before it
    looks at the sizes: with a peer name of fewer than two members it raises
    [IndexError], and with two members but a file name that is not valid
    UTF-8 it raises [UnicodeDecodeError], whatever the sizes are, a [size] of
    zero included; in both cases nothing is written. *)
Theorem callback_checks_peer_and_name_first file size sent peername out :
  ((List.length peername < 2)%nat ->
   _scp_client_progress_text_callback file size sent peername out
   = (Raise IndexError, out))
  /\ ((2 <= List.length peername)%nat ->
      utf8_valid file = false ->
      _scp_client_progress_text_callback file size sent peername out
      = (Raise UnicodeDecodeError, out)).
Proof.
  unfold _scp_client_progress_text_callback, tuple_getitem, bytes_decode.
  split.
  - intros Hlen. destruct peername as [| p0 [| p1 rest]]; simpl in *;
      [reflexivity | reflexivity | lia].
  - intros Hlen Hfile. destruct peername as [| p0 [| p1 rest]]; simpl in Hlen;
      [lia | lia |].
    simpl nth_error. rewrite Hfile. reflexivity.
Qed.

Lemma callback_checks_peer_and_name_first_witness :
  _scp_client_progress_text_callback (list_byte_of_string "f1.txt") 3 1
    [PyStr "10.0.0.5"] []
  = (Raise IndexError, [])
  /\ _scp_client_progress_text_callback [x80] 0 0 [PyStr "10.0.0.5"; PyInt 22] []
     = (Raise UnicodeDecodeError, []).
Proof.
  split.
  - apply (proj1 (callback_checks_peer_and_name_first
                    (list_byte_of_string "f1.txt") 3 1 [PyStr "10.0.0.5"] [])).
    simpl. lia.
  - apply (proj2 (callback_checks_peer_and_name_first
                    [x80] 0 0 [PyStr "10.0.0.5"; PyInt 22] [])).
    + simpl. lia.
    + reflexivity.
Defined.

Lemma binary_round_aux_shape sx m e l :
  0 < m -> emin prec emax <= e ->
  (exists q e', binary_round_aux prec emax sx m e l = S754_finite sx q e')
  \/ binary_round_aux prec emax sx m e l = S754_infinity sx.
Proof.
  intros Hm He. unfold binary_round_aux.
  destruct (shr_fexp_positive m e l Hm He) as (H1 & H2).
  destruct (shr_fexp prec emax m e l) as [mrs' e']. simpl in H1, H2.
  pose proof (round_nearest_even_positive (shr_m mrs') (loc_of_shr_record mrs') H1)
    as H3.
  destruct (shr_fexp_positive _ e' loc_Exact H3 H2) as (H4 & _).
  destruct (shr_fexp prec emax _ e' loc_Exact) as [mrs'' e'']. simpl in H4.
  destruct (shr_m mrs'') as [| q | q]; try lia.
  destruct (e'' <=? emax - prec); [left; eauto | right; reflexivity].
Qed.

(** The conversion of a non-zero integer in range is a finite number of the
    sign of the integer. *)
Lemma to_float_finite z :
  z <> 0 -> overflows z = false ->
  exists q e, to_float z = S754_finite (z <? 0) q e.
Proof.
  intros Hz Hover. unfold overflows in Hover. unfold to_float in *.
  unfold binary_normalize in *. destruct z as [| p | p]; [congruence | |].
  - unfold binary_round, shl_align in *.
    assert (H : emin prec emax <= fexp prec emax (Zpos (digits2_pos p) + 0))
      by (unfold fexp; lia).
    destruct (fexp prec emax (Zpos (digits2_pos p) + 0) - 0) eqn:E;
      match goal with
      | |- exists q e, binary_round_aux _ _ ?s ?m ?x ?l = _ =>
          destruct (binary_round_aux_shape s m x l) as [(q & e' & Hq) | Hq];
            [lia | unfold emin, prec, emax in *; lia | |];
            rewrite Hq in *; [eauto | discriminate Hover]
      end.
  - unfold binary_round, shl_align in *.
    assert (H : emin prec emax <= fexp prec emax (Zpos (digits2_pos p) + 0))
      by (unfold fexp; lia).
    destruct (fexp prec emax (Zpos (digits2_pos p) + 0) - 0) eqn:E;
      match goal with
      | |- exists q e, binary_round_aux _ _ ?s ?m ?x ?l = _ =>
          destruct (binary_round_aux_shape s m x l) as [(q & e' & Hq) | Hq];
            [lia | unfold emin, prec, emax in *; lia | |];
            rewrite Hq in *; [eauto | discriminate Hover]
      end.
Qed.

(** A finite double divided by itself is one. *)
Lemma SFdiv_self s m e :
  SFdiv prec emax (S754_finite s m e) (S754_finite s m e)
  = S754_finite false 4503599627370496 (-52).
Proof.
  unfold SFdiv, SFdiv_core_binary. rewrite !Z.sub_diag, xorb_nilpotent.
  change (Z.min (fexp prec emax 0) 0) with (-53).
  change (0 - -53) with 53.
  rewrite Z.shiftl_mul_pow2 by lia.
  destruct (Z.div_eucl (Zpos m * 2 ^ 53) (Zpos m)) as [q r] eqn:E.
  assert (Hq : q = Zpos m * 2 ^ 53 / Zpos m)
    by (unfold Z.div; rewrite E; reflexivity).
  assert (Hr : r = (Zpos m * 2 ^ 53) mod Zpos m)
    by (unfold Z.modulo; rewrite E; reflexivity).
  rewrite Z.mul_comm, Z.div_mul in Hq by lia.
  rewrite Z.mul_comm, Z.mod_mul in Hr by lia.
  subst q r.
  assert (Hloc : new_location (Zpos m) 0 = loc_Exact).
  { unfold new_location, new_location_even, new_location_odd.
    destruct (Z.even (Zpos m)); reflexivity. }
  rewrite Hloc. vm_compute. reflexivity.
Qed.

(** X18.  For a file name that is valid UTF-8, a peer name of at least two
    members and a [size] other than zero within the range of a double: when
    [sent] has reached [size], the callback writes the prefix, then
    [100.00%], then a line feed, and nothing else. *)
Theorem callback_ends_at_hundred file size host port rest out :
  utf8_valid file = true ->
  overflows size = false ->
  size <> 0 ->
  _scp_client_progress_text_callback file size size (host :: port :: rest) out
  = (Ok tt,
     app out [(py_str host ++ ":" ++ py_str port ++ " | "
                 ++ string_of_list_byte file)
                ++ " | " ++ "100.00" ++ "%" ++ LF]).
Proof.
  intros Hfile Hover Hz.
  destruct (to_float_finite size Hz Hover) as (q & e & Hfin).
  unfold _scp_client_progress_text_callback, bytes_decode, int_truediv_float,
    int_mul_float, tuple_getitem.
  simpl nth_error. rewrite Hfile.
  erewrite bind_Ok by reflexivity. erewrite bind_Ok by reflexivity.
  erewrite bind_Ok by reflexivity.
  erewrite bind_Ok by (apply float_of_int_in_range; exact Hover).
  erewrite bind_Ok with (a := S754_finite false 4503599627370496 (-52)).
  2:{ erewrite bind_Ok by (apply float_of_int_in_range; exact Hover).
      rewrite Hfin. simpl is_zero. rewrite SFdiv_self. reflexivity. }
  erewrite bind_Ok by reflexivity.
  rewrite Z.ltb_irrefl. reflexivity.
Qed.

Lemma callback_ends_at_hundred_witness :
  _scp_client_progress_text_callback (list_byte_of_string "f1.txt") 1234567
    1234567 [PyStr "10.0.0.5"; PyInt 22] []
  = (Ok tt, ["10.0.0.5:22 | f1.txt | 100.00%" ++ LF]).
Proof.
  apply (callback_ends_at_hundred (list_byte_of_string "f1.txt") 1234567
           (PyStr "10.0.0.5") (PyInt 22) [] []).
  - reflexivity.
  - reflexivity.
  - discriminate.
Defined.

(** X19.  For a file name that is valid UTF-8, a peer name of at least two
    members and a positive [size] within the range of a double: when nothing
    is sent yet, the callback writes the prefix, then [0.00%], then a
    carriage return, so that the next line overwrites it. *)
Theorem callback_starts_at_zero file size host port rest out :
  utf8_valid file = true ->
  overflows size = false ->
  0 < size ->
  _scp_client_progress_text_callback file size 0 (host :: port :: rest) out
  = (Ok tt,
     app out [(py_str host ++ ":" ++ py_str port ++ " | "
                 ++ string_of_list_byte file)
                ++ " | " ++ "0.00" ++ "%" ++ CR]).
Proof.
  intros Hfile Hover Hz.
  destruct (to_float_finite size) as (q & e & Hfin); [lia | exact Hover |].
  assert (Hneg : (size <? 0) = false) by (apply Z.ltb_ge; lia).
  rewrite Hneg in Hfin.
  unfold _scp_client_progress_text_callback, bytes_decode, int_truediv_float,
    int_mul_float, tuple_getitem.
  simpl nth_error. rewrite Hfile.
  erewrite bind_Ok by reflexivity. erewrite bind_Ok by reflexivity.
  erewrite bind_Ok by reflexivity.
  erewrite bind_Ok by (apply float_of_int_in_range; exact Hover).
  erewrite bind_Ok with (a := S754_zero false).
  2:{ erewrite bind_Ok by reflexivity. rewrite Hfin. reflexivity. }
  erewrite bind_Ok by reflexivity.
  assert (Hlt : (0 <? size) = true) by (apply Z.ltb_lt; exact Hz).
  rewrite Hlt. reflexivity.
Qed.

Lemma callback_starts_at_zero_witness :
  _scp_client_progress_text_callback (list_byte_of_string "f1.txt") 1234567 0
    [PyStr "10.0.0.5"; PyInt 22] []
  = (Ok tt, ["10.0.0.5:22 | f1.txt | 0.00%" ++ CR]).
Proof.
  apply (callback_starts_at_zero (list_byte_of_string "f1.txt") 1234567
           (PyStr "10.0.0.5") (PyInt 22) [] []).
  - reflexivity.
  - reflexivity.
  - reflexivity.
Defined.

(* ===================================================================== *)
(** ** The commands that only the SFTP client has *)
(* ===================================================================== *)

Lemma sftp_record_all_nil s : sftp_record_all [] s = s.
Proof. destruct s. unfold sftp_record_all. simpl. rewrite app_nil_r. reflexivity. Qed.

Lemma sftp_record_all_app calls1 calls2 s :
  sftp_record_all calls2 (sftp_record_all calls1 s)
  = sftp_record_all (calls1 ++ calls2) s.
Proof. unfold sftp_record_all. simpl. rewrite app_assoc. reflexivity. Qed.

Lemma lift_getattr_sftp s :
  sftp_client (self (connector s)) = Bound SFTPClientObj ->
  lift (getattr "sftp_client" sftp_client) s = (Ok SFTPClientObj, s).
Proof.
  intros H. unfold lift. rewrite (getattr_Bound _ _ _ _ H).
  destruct s. reflexivity.
Qed.

Lemma _remove_file_step sftp path s :
  sftp_client (self (connector s)) = Bound SFTPClientObj ->
  _remove_file sftp path s
  = (result_of (remove_outcome sftp path), sftp_record_all [SRemove path] s).
Proof.
  intros H. unfold _remove_file.
  erewrite bind_Ok by (apply lift_getattr_sftp; exact H).
  reflexivity.
Qed.

Lemma _remove_directory_step sftp path s :
  sftp_client (self (connector s)) = Bound SFTPClientObj ->
  _remove_directory sftp path s
  = (result_of (rmdir_outcome sftp path), sftp_record_all [SRmdir path] s).
Proof.
  intros H. unfold _remove_directory.
  erewrite bind_Ok by (apply lift_getattr_sftp; exact H).
  reflexivity.
Qed.

(** A run of calls to the SFTP client stops at the first one that fails. *)
Lemma sftp_batch (step : string -> M SftpState unit) call o :
  (forall path s,
     sftp_client (self (connector s)) = Bound SFTPClientObj ->
     step path s = (result_of (o path), sftp_record_all [call path] s)) ->
  forall pre s,
    sftp_client (self (connector s)) = Bound SFTPClientObj ->
    Forall (fun p => o p = None) pre ->
    for_each pre step s = (Ok tt, sftp_record_all (map call pre) s)
    /\ forall path post e,
         o path = Some e ->
         for_each (pre ++ path :: post) step s
         = (Raise e, sftp_record_all (map call (pre ++ [path])) s).
Proof.
  intros Hstep pre. induction pre as [| p pre IH]; intros s Hs Hpre.
  - split.
    + simpl. rewrite sftp_record_all_nil. reflexivity.
    + intros path post e He. simpl app. rewrite for_each_cons.
      erewrite bind_Raise; [reflexivity |].
      rewrite Hstep by exact Hs. rewrite He. reflexivity.
  - inversion Hpre as [| p' pre' Hp Hrest]; subst.
    destruct (IH (sftp_record_all [call p] s) Hs Hrest) as (IH1 & IH2).
    split.
    + rewrite for_each_cons. erewrite bind_Ok
        by (rewrite Hstep by exact Hs; rewrite Hp; reflexivity).
      rewrite IH1, sftp_record_all_app. reflexivity.
    + intros path post e He. rewrite <- app_comm_cons, for_each_cons.
      erewrite bind_Ok
        by (rewrite Hstep by exact Hs; rewrite Hp; reflexivity).
      rewrite (IH2 path post e He), sftp_record_all_app. reflexivity.
Qed.

(** X20.  With the SFTP client bound, [_remove_files] and
    [_remove_directories] remove the paths in the given order and stop at the
    first removal that fails: the paths before it are removed and stay so,
    its exception is raised, and the paths after it are not touched. *)
Theorem batch_removal_stops_at_first_failure sftp s pre path post e :
  sftp_client (self (connector s)) = Bound SFTPClientObj ->
  (Forall (fun p => remove_outcome sftp p = None) pre ->
   remove_outcome sftp path = Some e ->
   _remove_files sftp (pre ++ path :: post) s
   = (Raise e, sftp_record_all (map SRemove (pre ++ [path])) s))
  /\ (Forall (fun p => rmdir_outcome sftp p = None) pre ->
      rmdir_outcome sftp path = Some e ->
      _remove_directories sftp (pre ++ path :: post) s
      = (Raise e, sftp_record_all (map SRmdir (pre ++ [path])) s)).
Proof.
  intros Hs. split; intros Hpre Hpath.
  - apply (proj2 (sftp_batch (_remove_file sftp) SRemove (remove_outcome sftp)
                    (_remove_file_step sftp) pre s Hs Hpre)).
    exact Hpath.
  - apply (proj2 (sftp_batch (_remove_directory sftp) SRmdir (rmdir_outcome sftp)
                    (_remove_directory_step sftp) pre s Hs Hpre)).
    exact Hpath.
Qed.

Lemma batch_removal_stops_at_first_failure_witness :
  _remove_files sftp_locked ["/sdcard/a"; "/sdcard/locked"; "/sdcard/b"]
    {| connector := session quiet_env; sftp_calls := [] |}
  = (Raise (Passthrough "PermissionError"),
     {| connector := session quiet_env;
        sftp_calls := [SRemove "/sdcard/a"; SRemove "/sdcard/locked"] |})
  /\ _remove_directories sftp_locked ["/sdcard/a"; "/sdcard/locked"; "/sdcard/b"]
       {| connector := session quiet_env; sftp_calls := [] |}
     = (Raise (Passthrough "PermissionError"),
        {| connector := session quiet_env;
           sftp_calls := [SRmdir "/sdcard/a"; SRmdir "/sdcard/locked"] |}).
Proof.
  pose proof (batch_removal_stops_at_first_failure sftp_locked
                {| connector := session quiet_env; sftp_calls := [] |}
                ["/sdcard/a"] "/sdcard/locked" ["/sdcard/b"]
                (Passthrough "PermissionError")
                (proj2 (proj2 (opened_clients _ _ quiet_session_opened))))
    as (Hfiles & Hdirs).
  split.
  - apply Hfiles; [repeat constructor | reflexivity].
  - apply Hdirs; [repeat constructor | reflexivity].
Defined.

(* ===================================================================== *)
(** ** [upgrade.py] *)
(* ===================================================================== *)

Lemma flags_given major minor patch prerelease build :
  major || minor || patch || prerelease || build = true ->
  negb major && negb minor && negb patch && negb prerelease && negb build = false.
Proof. destruct major, minor, patch, prerelease, build; simpl; congruence. Qed.

Lemma confirm_cons write_outcome text new_version response rest :
  Upgrade.confirm write_outcome text new_version (response :: rest)
  = (Upgrade.show (Upgrade.Prompted (Upgrade.confirm_prompt text new_version)) ;;
     Upgrade.take_line rest ;;
     if negb (Upgrade.is_answer response) then
       Upgrade.show (Upgrade.Printed ("Invalid response, try again." ++ LF)) ;;
       Upgrade.confirm write_outcome text new_version rest
     else if String.eqb (Upgrade.upper response) "Y" then
       Upgrade.write_reference write_outcome new_version ;;
       Upgrade.write_module write_outcome
         ("VERSION=" ++ Upgrade.DQUOTE ++ new_version ++ Upgrade.DQUOTE)
     else ret tt).
Proof. reflexivity. Qed.

Lemma confirm_nil write_outcome text new_version :
  Upgrade.confirm write_outcome text new_version []
  = (Upgrade.show (Upgrade.Prompted (Upgrade.confirm_prompt text new_version)) ;;
     raise (Passthrough "EOFError")).
Proof. reflexivity. Qed.

(** The loop passes over the lines that are no answer, prompting again after
    each. *)
Lemma confirm_passes_invalid write_outcome text new_version lines invalid :
  Forall (fun line => Upgrade.is_answer line = false) invalid ->
  forall d,
    Upgrade.stdin d = (invalid ++ lines)%list ->
    Upgrade.confirm write_outcome text new_version (invalid ++ lines) d
    = Upgrade.confirm write_outcome text new_version lines
        {| Upgrade.reference_file := Upgrade.reference_file d;
           Upgrade.module_file := Upgrade.module_file d;
           Upgrade.stdin := lines;
           Upgrade.terminal :=
             (Upgrade.terminal d
              ++ flat_map (fun _ =>
                   [Upgrade.Prompted (Upgrade.confirm_prompt text new_version);
                    Upgrade.Printed ("Invalid response, try again." ++ LF)])
                   invalid)%list |}.
Proof.
  intros Hinvalid. induction Hinvalid as [| line invalid Hline _ IH]; intros d Hd.
  - destruct d as [rf mf si te]. simpl in Hd. subst si. simpl.
    rewrite app_nil_r. reflexivity.
  - rewrite <- app_comm_cons, confirm_cons.
    erewrite bind_Ok by reflexivity. cbv beta.
    erewrite bind_Ok by reflexivity. cbv beta.
    rewrite Hline. cbn [negb].
    erewrite bind_Ok by reflexivity. cbv beta.
    rewrite IH by reflexivity. simpl. rewrite <- !app_assoc. reflexivity.
Qed.

(** X21.  Called with no flag, [main] prints the current version and leaves
    by [exit()]: it asks nothing, reads nothing from the standard input and
    writes neither file.  An empty [VERSION] file counts as [0.0.0]. *)
Theorem main_without_flags_only_prints sv write_outcome d text v :
  Upgrade.reference_file d = Some text ->
  Upgrade.parse sv (if String.eqb text "" then "0.0.0" else text) = Ok v ->
  Upgrade.main sv write_outcome false false false false false d
  = (Raise (Passthrough "SystemExit"),
     {| Upgrade.reference_file := Upgrade.reference_file d;
        Upgrade.module_file := Upgrade.module_file d;
        Upgrade.stdin := Upgrade.stdin d;
        Upgrade.terminal :=
          (Upgrade.terminal d
           ++ [Upgrade.Printed ("Current version: " ++ Upgrade.str sv v)])%list |}).
Proof.
  intros Hfile Hparse. destruct d as [rf mf si te]. simpl in Hfile. subst rf.
  unfold Upgrade.main, Upgrade.read_reference.
  unfold bind at 1. cbn [Upgrade.reference_file].
  unfold bind at 1. unfold answer. rewrite Hparse. reflexivity.
Qed.

Lemma main_without_flags_only_prints_witness :
  Upgrade.main Upgrade.plain_semver Upgrade.writable false false false false
    false (Upgrade.desk ["Y"])
  = (Raise (Passthrough "SystemExit"),
     {| Upgrade.reference_file := Some "1.2.3";
        Upgrade.module_file :=
          Some ("VERSION=" ++ Upgrade.DQUOTE ++ "1.2.3" ++ Upgrade.DQUOTE);
        Upgrade.stdin := ["Y"];
        Upgrade.terminal := [Upgrade.Printed "Current version: 1.2.3"] |}).
Proof.
  apply (main_without_flags_only_prints Upgrade.plain_semver Upgrade.writable
           (Upgrade.desk ["Y"]) "1.2.3" (1, 2, 3)%N);
    reflexivity.
Defined.

Lemma main_to_confirm sv write_outcome major minor patch prerelease build d text v :
  Upgrade.reference_file d = Some text ->
  Upgrade.parse sv (if String.eqb text "" then "0.0.0" else text) = Ok v ->
  major || minor || patch || prerelease || build = true ->
  Upgrade.main sv write_outcome major minor patch prerelease build d
  = Upgrade.confirm write_outcome (if String.eqb text "" then "0.0.0" else text)
      (Upgrade.str sv
         (Upgrade.bump_if build (Upgrade.bump_build sv)
            (Upgrade.bump_if prerelease (Upgrade.bump_prerelease sv)
               (Upgrade.bump_if patch (Upgrade.bump_patch sv)
                  (Upgrade.bump_if minor (Upgrade.bump_minor sv)
                     (Upgrade.bump_if major (Upgrade.bump_major sv) v))))))
      (Upgrade.stdin d) d.
Proof.
  intros Hfile Hparse Hflags. destruct d as [rf mf si te]. simpl in Hfile.
  subst rf. unfold Upgrade.main, Upgrade.read_reference.
  unfold bind at 1. cbn [Upgrade.reference_file].
  unfold bind at 1. unfold answer. rewrite Hparse.
  rewrite (flags_given _ _ _ _ _ Hflags). reflexivity.
Qed.

(** X22.  Called with a flag, [main] asks until a line of the standard input
    is [Y] or [N] in either case, telling after each other line that the
    response is invalid.  On [Y], when the disk takes the writes, both files
    are written from the same new version, which is the old one with the
    bumps of the given flags applied in the order major, minor, patch,
    prerelease, build; on [N] neither file is written.  The lines after the
    answer are left on the standard input. *)
Theorem main_writes_on_yes_only
    sv write_outcome major minor patch prerelease build d text v
    invalid response rest :
  Upgrade.reference_file d = Some text ->
  Upgrade.parse sv (if String.eqb text "" then "0.0.0" else text) = Ok v ->
  major || minor || patch || prerelease || build = true ->
  Upgrade.stdin d = (invalid ++ response :: rest)%list ->
  Forall (fun line => Upgrade.is_answer line = false) invalid ->
  let shown_text := if String.eqb text "" then "0.0.0" else text in
  let new_version :=
    Upgrade.str sv
      (Upgrade.bump_if build (Upgrade.bump_build sv)
         (Upgrade.bump_if prerelease (Upgrade.bump_prerelease sv)
            (Upgrade.bump_if patch (Upgrade.bump_patch sv)
               (Upgrade.bump_if minor (Upgrade.bump_minor sv)
                  (Upgrade.bump_if major (Upgrade.bump_major sv) v))))) in
  let asked :=
    (Upgrade.terminal d
     ++ flat_map (fun _ =>
          [Upgrade.Prompted (Upgrade.confirm_prompt shown_text new_version);
           Upgrade.Printed ("Invalid response, try again." ++ LF)]) invalid
     ++ [Upgrade.Prompted (Upgrade.confirm_prompt shown_text new_version)])%list in
  (Upgrade.upper response = "Y" ->
   (forall path, write_outcome path = None) ->
   Upgrade.main sv write_outcome major minor patch prerelease build d
   = (Ok tt,
      {| Upgrade.reference_file := Some new_version;
         Upgrade.module_file :=
           Some ("VERSION=" ++ Upgrade.DQUOTE ++ new_version ++ Upgrade.DQUOTE);
         Upgrade.stdin := rest;
         Upgrade.terminal := asked |}))
  /\ (Upgrade.upper response = "N" ->
      Upgrade.main sv write_outcome major minor patch prerelease build d
      = (Ok tt,
         {| Upgrade.reference_file := Upgrade.reference_file d;
            Upgrade.module_file := Upgrade.module_file d;
            Upgrade.stdin := rest;
            Upgrade.terminal := asked |})).
Proof.
  intros Hfile Hparse Hflags Hstdin Hinvalid shown_text new_version asked.
  rewrite (main_to_confirm _ _ _ _ _ _ _ _ _ _ Hfile Hparse Hflags).
  fold shown_text new_version. rewrite Hstdin.
  rewrite (confirm_passes_invalid _ _ _ _ _ Hinvalid d Hstdin).
  unfold asked. split.
  - intros Hyes Hwrite. rewrite confirm_cons.
    erewrite bind_Ok by reflexivity. cbv beta.
    erewrite bind_Ok by reflexivity. cbv beta.
    unfold Upgrade.is_answer. rewrite Hyes. cbn [negb orb String.eqb Ascii.eqb Bool.eqb].
    unfold Upgrade.write_reference, Upgrade.write_module.
    rewrite !Hwrite. simpl. rewrite <- app_assoc. reflexivity.
  - intros Hno. rewrite confirm_cons.
    erewrite bind_Ok by reflexivity. cbv beta.
    erewrite bind_Ok by reflexivity. cbv beta.
    unfold Upgrade.is_answer. rewrite Hno. simpl.
    rewrite <- app_assoc. reflexivity.
Qed.

Lemma main_writes_on_yes_only_witness :
  Upgrade.main Upgrade.plain_semver Upgrade.writable false true false false
    false (Upgrade.desk ["maybe"; "y"; "N"])
  = (Ok tt,
     {| Upgrade.reference_file := Some "1.3.0";
        Upgrade.module_file :=
          Some ("VERSION=" ++ Upgrade.DQUOTE ++ "1.3.0" ++ Upgrade.DQUOTE);
        Upgrade.stdin := ["N"];
        Upgrade.terminal :=
          [Upgrade.Prompted
             "Upgrade current version: v1.2.3 to v1.3.0 - Confirm (Y/N): ";
           Upgrade.Printed ("Invalid response, try again." ++ LF);
           Upgrade.Prompted
             "Upgrade current version: v1.2.3 to v1.3.0 - Confirm (Y/N): "] |})
  /\ Upgrade.main Upgrade.plain_semver Upgrade.writable true false false false
       false (Upgrade.desk ["n"; "Y"])
     = (Ok tt,
        {| Upgrade.reference_file := Some "1.2.3";
           Upgrade.module_file :=
             Some ("VERSION=" ++ Upgrade.DQUOTE ++ "1.2.3" ++ Upgrade.DQUOTE);
           Upgrade.stdin := ["Y"];
           Upgrade.terminal :=
             [Upgrade.Prompted
                "Upgrade current version: v1.2.3 to v2.0.0 - Confirm (Y/N): "] |}).
Proof.
  split.
  - apply (proj1 (main_writes_on_yes_only Upgrade.plain_semver Upgrade.writable
                    false true false false false
                    (Upgrade.desk ["maybe"; "y"; "N"]) "1.2.3" (1, 2, 3)%N
                    ["maybe"] "y" ["N"] eq_refl eq_refl eq_refl eq_refl
                    ltac:(repeat constructor))).
    + reflexivity.
    + intros path. reflexivity.
  - apply (proj2 (main_writes_on_yes_only Upgrade.plain_semver Upgrade.writable
                    true false false false false
                    (Upgrade.desk ["n"; "Y"]) "1.2.3" (1, 2, 3)%N
                    [] "n" ["Y"] eq_refl eq_refl eq_refl eq_refl
                    ltac:(repeat constructor))).
    reflexivity.
Defined.

Lemma prompts_of_retries prompt (lines : list string) :
  List.length
    (filter (fun x => match x with
                      | Upgrade.Prompted _ => true
                      | _ => false
                      end)
       (flat_map (fun _ =>
          [Upgrade.Prompted prompt;
           Upgrade.Printed ("Invalid response, try again." ++ LF)]) lines))
  = List.length lines.
Proof.
  induction lines as [| line lines IH]; [reflexivity |].
  simpl. simpl in IH. rewrite IH. reflexivity.
Qed.

(** X23.  Called with a flag, when the standard input ends before a line is
    [Y] or [N], [main] raises [EOFError] after one more prompt, and neither
    file is written. *)
Theorem main_without_answer_writes_nothing
    sv write_outcome major minor patch prerelease build d text v :
  Upgrade.reference_file d = Some text ->
  Upgrade.parse sv (if String.eqb text "" then "0.0.0" else text) = Ok v ->
  major || minor || patch || prerelease || build = true ->
  Forall (fun line => Upgrade.is_answer line = false) (Upgrade.stdin d) ->
  exists shown_lines,
    Upgrade.main sv write_outcome major minor patch prerelease build d
    = (Raise (Passthrough "EOFError"),
       {| Upgrade.reference_file := Upgrade.reference_file d;
          Upgrade.module_file := Upgrade.module_file d;
          Upgrade.stdin := [];
          Upgrade.terminal := (Upgrade.terminal d ++ shown_lines)%list |})
    /\ List.length
         (filter (fun x => match x with
                           | Upgrade.Prompted _ => true
                           | _ => false
                           end) shown_lines)
       = S (List.length (Upgrade.stdin d)).
Proof.
  intros Hfile Hparse Hflags Hinvalid.
  rewrite (main_to_confirm _ _ _ _ _ _ _ _ _ _ Hfile Hparse Hflags).
  set (text' := if String.eqb text "" then "0.0.0" else text).
  set (nv := Upgrade.str sv _).
  exists (flat_map (fun _ =>
            [Upgrade.Prompted (Upgrade.confirm_prompt text' nv);
             Upgrade.Printed ("Invalid response, try again." ++ LF)])
            (Upgrade.stdin d)
          ++ [Upgrade.Prompted (Upgrade.confirm_prompt text' nv)])%list.
  split.
  - rewrite <- (app_nil_r (Upgrade.stdin d)) at 1.
    rewrite (confirm_passes_invalid _ _ _ [] _ Hinvalid d)
      by (rewrite app_nil_r; reflexivity).
    rewrite confirm_nil. unfold bind, Upgrade.show, modify, raise. simpl.
    rewrite <- app_assoc. reflexivity.
  - rewrite filter_app, length_app, prompts_of_retries. simpl. lia.
Qed.

Lemma main_without_answer_writes_nothing_witness :
  exists shown_lines,
    Upgrade.main Upgrade.plain_semver Upgrade.writable false false true false
      false (Upgrade.desk ["yes"; ""])
    = (Raise (Passthrough "EOFError"),
       {| Upgrade.reference_file := Some "1.2.3";
          Upgrade.module_file :=
            Some ("VERSION=" ++ Upgrade.DQUOTE ++ "1.2.3" ++ Upgrade.DQUOTE);
          Upgrade.stdin := [];
          Upgrade.terminal := shown_lines |})
    /\ List.length
         (filter (fun x => match x with
                           | Upgrade.Prompted _ => true
                           | _ => false
                           end) shown_lines)
       = 3%nat.
Proof.
  exact (main_without_answer_writes_nothing Upgrade.plain_semver
           Upgrade.writable false false true false false
           (Upgrade.desk ["yes"; ""]) "1.2.3" (1, 2, 3)%N eq_refl eq_refl
           eq_refl ltac:(repeat constructor)).
Defined.



(** X25.  Whatever the flags, when the [VERSION] file does not exist, or
    holds a text that [semver] does not parse, [main] raises at once: nothing
    is printed, asked, read or written. *)
Theorem main_stops_on_bad_version_file
    sv write_outcome major minor patch prerelease build d :
  (Upgrade.reference_file d = None ->
   Upgrade.main sv write_outcome major minor patch prerelease build d
   = (Raise (Passthrough "FileNotFoundError"), d))
  /\ (forall text e,
        Upgrade.reference_file d = Some text ->
        Upgrade.parse sv (if String.eqb text "" then "0.0.0" else text) = Raise e ->
        Upgrade.main sv write_outcome major minor patch prerelease build d
        = (Raise e, d)).
Proof.
  unfold Upgrade.main, Upgrade.read_reference. split.
  - intros H. unfold bind at 1. rewrite H. reflexivity.
  - intros text e H Hparse. unfold bind at 1. rewrite H.
    unfold bind at 1. unfold answer. rewrite Hparse. reflexivity.
Qed.

Lemma main_stops_on_bad_version_file_witness :
  Upgrade.main Upgrade.plain_semver Upgrade.writable true false false false false
    {| Upgrade.reference_file := None; Upgrade.module_file := None;
       Upgrade.stdin := ["Y"]; Upgrade.terminal := [] |}
  = (Raise (Passthrough "FileNotFoundError"),
     {| Upgrade.reference_file := None; Upgrade.module_file := None;
        Upgrade.stdin := ["Y"]; Upgrade.terminal := [] |})
  /\ Upgrade.main Upgrade.plain_semver Upgrade.writable true false false false
       false
       {| Upgrade.reference_file := Some "one.two"; Upgrade.module_file := None;
          Upgrade.stdin := ["Y"]; Upgrade.terminal := [] |}
     = (Raise (Passthrough "ValueError"),
        {| Upgrade.reference_file := Some "one.two"; Upgrade.module_file := None;
           Upgrade.stdin := ["Y"]; Upgrade.terminal := [] |}).
Proof.
  split.
  - apply (proj1 (main_stops_on_bad_version_file Upgrade.plain_semver
                    Upgrade.writable true false false false false _)).
    reflexivity.
  - apply (proj2 (main_stops_on_bad_version_file Upgrade.plain_semver
                    Upgrade.writable true false false false false _)
             "one.two" (Passthrough "ValueError"));
      reflexivity.
Defined.
